(** * Weather dashboard front end: the service layer and the page logic

    A shallow embedding of

    - [services/weatherAPI.ts]: [WeatherService.getLocationFromCoords],
      [WeatherService.getForecastByCity], [WeatherService.getForecastByCoords];
    - [src/app/page.tsx]: [refetchWeather] and [getWindDirection].

    The TypeScript code runs on JavaScript values, awaits axios requests and
    uses [try]/[catch]; the embedding keeps those three layers apart:

    - [value] is the run-time data (JSON documents and what the code builds
      from them), with the language's own rules for property reads,
      truthiness and object spread;
    - [Async] is a state-and-exception monad over the history of observable
      events (requests issued, requests settled, console output, calls of
      the page's state setters);
    - the remote services are arbitrary functions of that history. *)

From Stdlib Require Import ZArith Strings.Ascii Floats.SpecFloat.
From stdpp Require Import gmap strings list fin_maps pretty.

#[local] Set Warnings "-register-all".
#[local] Open Scope Z_scope.

(* ===================================================================== *)
(** ** Run-time values *)
(* ===================================================================== *)

(** A JavaScript number is an IEEE-754 binary64 value.  The service layer
    never computes with coordinates: it passes them on, compares nothing, and
    only tests them for truthiness in the page. *)
Definition number : Type := spec_float.

(** The number denoted by an integer literal of the source ([10], [1]). *)
Definition number_of_Z (z : Z) : number := binary_normalize 53 1024 z 0 false.

(** Values as they come out of [JSON.parse] or are built by the code.  An
    object is a finite map from property names to values; a property that
    holds [undefined] is a key bound to [VUndefined]. *)
Inductive value : Type :=
| VUndefined
| VNull
| VBool (b : bool)
| VNum (n : number)
| VStr (s : string)
| VArr (items : list value)
| VObj (props : gmap string value).

(** What [throw] carries in this program: the rejection of an axios request
    or the [TypeError] of a property read on [undefined]/[null]. *)
Inductive exception : Type :=
| AxiosError (message code : string)
| TypeError (message : string).

(** [e.message] *)
Definition message_of (e : exception) : string :=
  match e with
  | AxiosError m _ => m
  | TypeError m => m
  end.

(** [e instanceof Error]: both kinds are. *)
Definition instanceof_Error (e : exception) : bool :=
  match e with
  | AxiosError _ _ | TypeError _ => true
  end.

(** The completion of an expression or of a function body. *)
Inductive completion (A : Type) : Type :=
| Normal (a : A)
| Throw (e : exception).
Arguments Normal {A} a.
Arguments Throw {A} e.

Module JS.

(** [ToBoolean]: the falsy values are [undefined], [null], [false], [+0],
    [-0], [NaN] and the empty string. *)
Definition number_truthy (n : number) : bool :=
  match n with
  | S754_zero _ | S754_nan => false
  | S754_infinity _ | S754_finite _ _ _ => true
  end.

Definition to_boolean (v : value) : bool :=
  match v with
  | VUndefined | VNull => false
  | VBool b => b
  | VNum n => number_truthy n
  | VStr s => negb (String.eqb s "")
  | VArr _ | VObj _ => true
  end.

Definition nullish (v : value) : bool :=
  match v with
  | VUndefined | VNull => true
  | _ => false
  end.

(** The array index a property name denotes, below [n]. *)
Definition index_of_key (k : string) (n : nat) : option nat :=
  snd <$> list_find (fun i : nat => pretty i = k) (seq 0 n).

Definition chars (s : string) : list value :=
  (fun c => VStr (String c EmptyString)) <$> String.list_ascii_of_string s.

Definition indexed (l : list value) (k : string) : value :=
  if String.eqb k "length" then VNum (number_of_Z (Z.of_nat (length l)))
  else match index_of_key k (length l) with
       | Some i => default VUndefined (l !! i)
       | None => VUndefined
       end.

(** What [v.k] evaluates to for a [v] other than [undefined] and [null]: a
    missing property reads as [undefined].  Arrays and strings answer to
    [length] and to their indices; the prototype's methods, which the source
    never reads, are left out. *)
Definition read (v : value) (k : string) : value :=
  match v with
  | VObj o => default VUndefined (o !! k)
  | VArr l => indexed l k
  | VStr s => indexed (chars s) k
  | VUndefined | VNull | VBool _ | VNum _ => VUndefined
  end.

(** The property read [v.k].  Reading from [undefined] or [null] throws a
    [TypeError]. *)
Definition get (v : value) (k : string) : completion value :=
  match v with
  | VUndefined =>
      Throw (TypeError ("Cannot read properties of undefined (reading '" +:+ k +:+ "')"))
  | VNull =>
      Throw (TypeError ("Cannot read properties of null (reading '" +:+ k +:+ "')"))
  | _ => Normal (read v k)
  end.

(** The read [o.k] of a value known to be an object. *)
Definition field (o : gmap string value) (k : string) : value := read (VObj o) k.

(** The own enumerable properties that [{...v}] copies. *)
Definition own_props (v : value) : gmap string value :=
  match v with
  | VObj o => o
  | VArr l => list_to_map (imap (fun i x => (pretty i, x)) l)
  | VStr s => list_to_map (imap (fun i x => (pretty i, x)) (chars s))
  | VUndefined | VNull | VBool _ | VNum _ => ∅
  end.

(** The optional read [v?.k]: [undefined] when [v] is [undefined] or [null],
    and [v.k] otherwise. *)
Definition opt_read (v : value) (k : string) : value :=
  if nullish v then VUndefined else read v k.

(** Texts are sequences of code units below 256, which is what [string]
    holds.  Among those the white space and line terminators that [trim]
    removes are TAB, LF, VT, FF, CR, SP and NBSP. *)
Definition is_white_space (c : ascii) : bool :=
  let n := nat_of_ascii c in
  ((9 <=? n)%nat && (n <=? 13)%nat) || (n =? 32)%nat || (n =? 160)%nat.

Fixpoint trim_start (s : string) : string :=
  match s with
  | EmptyString => EmptyString
  | String c rest => if is_white_space c then trim_start rest else s
  end.

Fixpoint trim_end (s : string) : string :=
  match s with
  | EmptyString => EmptyString
  | String c rest =>
      match trim_end rest with
      | EmptyString => if is_white_space c then EmptyString else String c EmptyString
      | kept => String c kept
      end
  end.

(** [s.trim()] *)
Definition trim (s : string) : string := trim_end (trim_start s).

(** Whether the conversion of a value to text ([ToString]) throws.  A
    document's object has no callable member of its own, so the conversion
    of an object goes through the prototype's [toString] and gives
    "[object Object]" unless the object has a member named [toString] of its
    own: then neither that member nor [valueOf] gives a primitive and the
    conversion throws a [TypeError].  An array is converted by [join], which
    converts every element except [undefined] and [null], so it throws when
    an element does.  Every other value has a text. *)
Fixpoint to_string_throws (v : value) : bool :=
  match v with
  | VObj o => bool_decide (is_Some (o !! "toString"))
  | VArr l => existsb to_string_throws l
  | VUndefined | VNull | VBool _ | VNum _ | VStr _ => false
  end.

(** [parseFloat(v)]: the argument is converted to text first, which may
    throw; reading a number off the text, [parse], always returns. *)
Definition parse_float (parse : value -> number) (v : value) : completion number :=
  if to_string_throws v then Throw (TypeError "Cannot convert object to primitive value")
  else Normal (parse v).






(** The integer a number is, when it is a whole number. *)
Definition whole (x : number) : option Z :=
  match x with
  | S754_zero _ => Some 0
  | S754_finite s m e =>
      let v := if s then Zneg m else Zpos m in
      if 0 <=? e then Some (v * 2 ^ e)
      else if v mod 2 ^ (- e) =? 0 then Some (v / 2 ^ (- e)) else None
  | S754_infinity _ | S754_nan => None
  end.

End JS.

(* ===================================================================== *)
(** ** Observable events and the [Async] monad *)
(* ===================================================================== *)

(** The two axios instances of the service module. *)
Inductive instance : Type := weatherApi | nominatimApi.

(** The state setters of the page component ([useState]).  The cell [city]
    is declared a text; [setCityValue] is [setCity] called with a value that
    is not one, which the declared types rule out and a document that does
    not follow them can still bring about. *)
Inductive setter : Type :=
| setCity (v : string)
| setCityValue (v : value)
| setWeatherData (v : option (gmap string value))
| setLoading (v : bool)
| setError (v : option string)
| setGeoLoading (v : bool).

Inductive event : Type :=
| Request (api : instance) (url : string) (params : list (string * value))
| Settled (api : instance) (fulfilled : bool)
| ConsoleError (label : string) (e : exception)
| StateSet (call : setter).

(** How an axios request ends: the promise resolves with [response.data] or
    rejects (time-out, network failure, status outside 2xx). *)
Inductive outcome (A : Type) : Type :=
| Resolved (data : A)
| Rejected (e : exception).
Arguments Resolved {A} data.
Arguments Rejected {A} e.

(** The remote services.  Each answers as a function of everything that
    happened so far, the request just issued included.  The geocoder's body
    is any value at all; the forecast backend's body is an object, as its
    type [WeatherForecast] says, with fields of any value. *)
Record Network : Type := {
  nominatim : list event -> outcome value;
  backend : list event -> outcome (gmap string value)
}.

Definition Async (A : Type) : Type := list event -> completion A * list event.

Definition ret {A} (a : A) : Async A := fun h => (Normal a, h).

Definition throw {A} (e : exception) : Async A := fun h => (Throw e, h).

Definition bind {A B} (m : Async A) (k : A -> Async B) : Async B :=
  fun h =>
    match m h with
    | (Normal a, h') => k a h'
    | (Throw e, h') => (Throw e, h')
    end.

(** [try { m } catch (error) { handler error }] *)
Definition try_catch {A} (m : Async A) (handler : exception -> Async A) : Async A :=
  fun h =>
    match m h with
    | (Normal a, h') => (Normal a, h')
    | (Throw e, h') => handler e h'
    end.

(** [try { m } finally { cleanup }] with a clean-up that cannot throw. *)
Definition try_finally {A} (m : Async A) (cleanup : Async unit) : Async A :=
  fun h =>
    match m h with
    | (c, h') => (c, snd (cleanup h'))
    end.

(** Lifting the completion of a pure expression. *)
Definition lift {A} (c : completion A) : Async A := fun h => (c, h).

Definition console_error (label : string) (e : exception) : Async unit :=
  fun h => (Normal tt, h ++ [ConsoleError label e]).

(** [await api.get(url, { params })], giving [response.data]. *)
Definition axios_get {A} (api : instance) (reply : list event -> outcome A)
    (url : string) (params : list (string * value)) : Async A :=
  fun h =>
    let h1 := h ++ [Request api url params] in
    match reply h1 with
    | Resolved data => (Normal data, h1 ++ [Settled api true])
    | Rejected e => (Throw e, h1 ++ [Settled api false])
    end.

Declare Scope async_scope.
Delimit Scope async_scope with async.
Bind Scope async_scope with Async.
Notation "x <- m ;; k" := (bind m (fun x => k))
  (at level 100, m at level 99, k at level 200, right associativity) : async_scope.
Notation "m ;; k" := (bind m (fun _ => k))
  (at level 100, k at level 200, right associativity) : async_scope.

(** [a || b]: the right operand is evaluated only when the left is falsy. *)
Definition or_else (a b : Async value) : Async value :=
  (v <- a ;; if JS.to_boolean v then ret v else b)%async.
Infix "|||" := or_else (at level 50, left associativity) : async_scope.

(* ===================================================================== *)
(** ** [services/weatherAPI.ts] *)
(* ===================================================================== *)

(** ['metric' | 'imperial'] *)
Inductive Units : Type := metric | imperial.

Definition units_value (u : Units) : value :=
  match u with
  | metric => VStr "metric"
  | imperial => VStr "imperial"
  end.

(** The object [getLocationFromCoords] builds.  The three texts are whatever
    the geocoder's body held under those names; the coordinates are the
    numbers [parseFloat] returned. *)
Record CityInfo : Type := {
  name : value;
  country : value;
  state : value;
  lat : number;
  lon : number
}.

Module WeatherService.
Section Service.

(** The number the language's [parseFloat] reads off a value whose
    conversion to text succeeds; [JS.parse_float] adds the conversion, which
    can throw. *)
Variable parseFloat : value -> number.
Variable net : Network.

(** [data.address.k] *)
Definition address_member (data : value) (k : string) : Async value :=
  (address <- lift (JS.get data "address") ;; lift (JS.get address k))%async.

Definition getLocationFromCoords (lat lon : value) : Async (option CityInfo) :=
  try_catch
    (data <- axios_get nominatimApi (nominatim net) "/reverse"
               [("lat", lat); ("lon", lon); ("format", VStr "json");
                ("zoom", VNum (number_of_Z 10));
                ("addressdetails", VNum (number_of_Z 1))] ;;
     name <- (address_member data "city" ||| address_member data "town"
              ||| address_member data "village" ||| address_member data "county"
              ||| ret (VStr "Unknown Location")) ;;
     country <- address_member data "country" ;;
     state <- address_member data "state" ;;
     lat' <- lift (JS.get data "lat") ;;
     lat <- lift (JS.parse_float parseFloat lat') ;;
     lon' <- lift (JS.get data "lon") ;;
     lon <- lift (JS.parse_float parseFloat lon') ;;
     ret (Some {| name := name; country := country; state := state;
                  lat := lat; lon := lon |}))%async
    (fun error =>
       (console_error "Error getting location from coordinates:" error ;;
        ret None)%async).

(** [units = 'metric'] in the parameter list: the default applies when the
    caller passes nothing. *)
Definition units_or_default (units : option Units) : Units := default metric units.

Definition getForecastByCity (city : string) (units : option Units)
  : Async (gmap string value) :=
  try_catch
    (axios_get weatherApi (backend net) "/api/weather/forecast/city"
       [("city", VStr city); ("units", units_value (units_or_default units))])
    (fun error =>
       (console_error "Error fetching weather forecast:" error ;;
        throw error)%async).

(** [{ ...city_info, name, country, state }] *)
Definition merge_city_info (city_info : value) (locationInfo : CityInfo)
  : gmap string value :=
  <["state" := state locationInfo]>
    (<["country" := country locationInfo]>
       (<["name" := name locationInfo]> (JS.own_props city_info))).

Definition getForecastByCoords (lat lon : value) (units : option Units)
  : Async (gmap string value) :=
  try_catch
    (locationInfo <- getLocationFromCoords lat lon ;;
     weatherData <- axios_get weatherApi (backend net)
                      "/api/weather/forecast/coordinates"
                      [("lat", lat); ("lon", lon);
                       ("units", units_value (units_or_default units))] ;;
     match locationInfo with
     | Some info =>
         ret (<["city_info" :=
                  VObj (merge_city_info (JS.field weatherData "city_info") info)]>
                weatherData)
     | None => ret weatherData
     end)%async
    (fun error =>
       (console_error "Error fetching weather forecast by coordinates:" error ;;
        throw error)%async).

End Service.
End WeatherService.

(* ===================================================================== *)
(** ** [src/app/page.tsx] *)
(* ===================================================================== *)

(** The [useState] cells of the [Home] component. *)
Record PageState : Type := {
  city : string;
  weatherData : option (gmap string value);
  loading : bool;
  error : option string;
  units : Units;
  geoLoading : bool
}.

(** A call of a state setter. *)
Definition call (c : setter) : Async unit :=
  fun h => (Normal tt, h ++ [StateSet c]).

(** [a && b]: the right operand is evaluated only when the left is truthy. *)
Definition and_also (a b : Async value) : Async value :=
  (v <- a ;; if JS.to_boolean v then b else ret v)%async.
Infix "&&&" := and_also (at level 40, left associativity) : async_scope.

Module Home.
Section Page.

Variable parseFloat : value -> number.
Variable net : Network.

(** [weatherData?.city_info] *)
Definition city_info_of (weatherData : option (gmap string value)) : value :=
  match weatherData with
  | Some w => JS.field w "city_info"
  | None => VUndefined
  end.

(** The [catch] block shared by the three branches of [refetchWeather]. *)
Definition report (error : exception) : Async unit :=
  (console_error "Error refetching weather:" error ;;
   call (setError (Some (if instanceof_Error error then message_of error
                         else "Failed to update weather data"))))%async.

(** The two branches that search by city name are the same text. *)
Definition refetch_by_city (st : PageState) : Async unit :=
  (call (setLoading true) ;;
   try_finally
     (try_catch
        (data <- WeatherService.getForecastByCity net (city st) (Some (units st)) ;;
         call (setWeatherData (Some data)))
        report)
     (call (setLoading false)))%async.

Definition refetchWeather (st : PageState) : Async unit :=
  (call (setError None) ;;
   let city_info := city_info_of (weatherData st) in
   if JS.to_boolean city_info then
     coords <- (lift (JS.get city_info "lat") &&& lift (JS.get city_info "lon")) ;;
     if JS.to_boolean coords then
       call (setGeoLoading true) ;;
       try_finally
         (try_catch
            (lat <- lift (JS.get city_info "lat") ;;
             lon <- lift (JS.get city_info "lon") ;;
             data <- WeatherService.getForecastByCoords parseFloat net
                       lat lon (Some (units st)) ;;
             call (setWeatherData (Some data)))
            report)
         (call (setGeoLoading false))
     else if negb (String.eqb (city st) "") then refetch_by_city st
     else ret tt
   else if negb (String.eqb (city st) "") then refetch_by_city st
   else ret tt)%async.

(** [error as { response?: { data?: { error?: string } } }]: the view of an
    exception that [handleSearch] casts it to.  [None] when the exception has
    no [response] member; otherwise the text found at
    [response?.data?.error], if there is one.  Which exceptions carry a
    response is the HTTP library's business, so the view is a parameter. *)
Variable response_error : exception -> option (option string).

(** [text || fallback] for an optional text. *)
Definition text_or (text : option string) (fallback : string) : string :=
  match text with
  | Some s => if String.eqb s "" then fallback else s
  | None => fallback
  end.

(** The form's submit handler.  An exception is an object, so the first two
    conjuncts of the test in the [catch] block hold and the test is
    ['response' in error]. *)
Definition handleSearch (st : PageState) : Async unit :=
  if negb (JS.to_boolean (VStr (JS.trim (city st)))) then ret tt
  else
    (call (setLoading true) ;;
     call (setError None) ;;
     try_finally
       (try_catch
          (data <- WeatherService.getForecastByCity net (city st) (Some (units st)) ;;
           call (setWeatherData (Some data)))
          (fun error =>
             console_error "Error fetching weather data:" error ;;
             match response_error error with
             | Some text =>
                 call (setError (Some (text_or text "Failed to fetch weather data")))
             | None =>
                 call (setError (Some (if instanceof_Error error then message_of error
                                       else "Failed to fetch weather data")))
             end))
       (call (setLoading false)))%async.

(** What the browser's geolocation does for [getLocationWeather]:
    [navigator.geolocation] is missing, or [getCurrentPosition] calls the
    success callback with the coordinates of a position, or it calls the
    error callback with an error that has a message. *)
Inductive geolocation : Type :=
| Unsupported
| Located (latitude longitude : number)
| Failed (message : string).

(** [error.code], for the exceptions that have one. *)
Definition code_of (e : exception) : option string :=
  match e with
  | AxiosError _ code => Some code
  | TypeError _ => None
  end.

(** [setCity(data.city_info.name)] under [if (data.city_info?.name)]: the
    setter is called with the name whenever the name is truthy, a text or
    not. *)
Definition show_name (data : gmap string value) : Async unit :=
  let name := JS.opt_read (JS.field data "city_info") "name" in
  if JS.to_boolean name then
    match name with
    | VStr s => call (setCity s)
    | _ => call (setCityValue name)
    end
  else ret tt.

Definition getLocationWeather (geo : geolocation) (st : PageState) : Async unit :=
  match geo with
  | Unsupported =>
      call (setError (Some "Geolocation is not supported by your browser"))
  | Located latitude longitude =>
      (call (setGeoLoading true) ;;
       call (setError None) ;;
       try_finally
         (try_catch
            (data <- WeatherService.getForecastByCoords parseFloat net
                       (VNum latitude) (VNum longitude) (Some (units st)) ;;
             call (setWeatherData (Some data)) ;;
             show_name data)
            (fun error =>
               console_error "Error fetching weather by location:" error ;;
               if bool_decide (code_of error = Some "ECONNABORTED") then
                 call (setError (Some "Connection timed out. The weather server might be slow or unavailable. Try searching by city name instead."))
               else
                 call (setError (Some (if instanceof_Error error then message_of error
                                       else "Could not get weather for your location. Please try searching by city name instead.")))))
         (call (setGeoLoading false)))%async
  | Failed message =>
      (call (setGeoLoading true) ;;
       call (setError None) ;;
       call (setError (Some ("Error getting location: " +:+ message))) ;;
       call (setGeoLoading false))%async
  end.

(** The click handler of the units button: the value it gives to [setUnits]
    and the callback it gives to [setTimeout].  The callback calls the
    [refetchWeather] of the render the handler belongs to, whose cells are
    [st]. *)
Definition toggleUnits (st : PageState) : Units * Async unit :=
  (match units st with
   | metric => imperial
   | imperial => metric
   end,
   refetchWeather st).

End Page.

Definition directions : list string :=
  ["N"; "NE"; "E"; "SE"; "S"; "SW"; "W"; "NW"]%string.

(** [Math.round(a / b)] for integers [a] and [b > 0]: the quotient rounded
    to the nearest integer, halves upwards, that is [floor (a/b + 1/2)]. *)
Definition round_div (a b : Z) : Z := (2 * a + b) / (2 * b).

(** [l[i]]: [undefined] (here [None]) outside the array. *)
Definition element (l : list string) (i : Z) : option string :=
  if i <? 0 then None else l !! Z.to_nat i.

(** [getWindDirection] on a bearing that is a whole number of degrees, as
    the forecast source reports it.  On whole numbers [%] is exact and
    truncates towards zero ([Z.rem]), [Math.round] of the quotient by 45 is
    [round_div], and indexing is exact; [getWindDirection_number] below is
    the function on every number of the language, and the two agree on the
    whole bearings that are not negative.  [None] as argument is
    [undefined]; [None] as result is the [undefined] that indexing outside
    [directions] gives. *)
Definition getWindDirection (deg : option Z) : option string :=
  match deg with
  | None => Some "N/A"%string
  | Some deg => element directions (Z.rem (round_div (Z.rem deg 360) 45) 8)
  end.



(** [weatherData?.daily_forecasts?.[0]] *)
Definition currentForecast (weatherData : option (gmap string value)) : value :=
  JS.opt_read
    (match weatherData with
     | Some w => JS.field w "daily_forecasts"
     | None => VUndefined
     end) "0".

(** [currentForecast?.hourly_forecasts?.[0]] *)
Definition currentHourForecast (weatherData : option (gmap string value)) : value :=
  JS.opt_read (JS.opt_read (currentForecast weatherData) "hourly_forecasts") "0".

(** [currentHourForecast?.group.k]: the optional link guards the first read
    only. *)
Definition current_reading (weatherData : option (gmap string value))
    (group k : string) : completion value :=
  let hour := currentHourForecast weatherData in
  if JS.nullish hour then Normal VUndefined
  else JS.get (JS.read hour group) k.

Definition humidity (weatherData : option (gmap string value)) : completion value :=
  current_reading weatherData "main" "humidity".

Definition windSpeed (weatherData : option (gmap string value)) : completion value :=
  current_reading weatherData "wind" "speed".

Definition windDeg (weatherData : option (gmap string value)) : completion value :=
  current_reading weatherData "wind" "deg".

(** [weatherData?.city_info?.name || 'Location'] *)
Definition place_label (weatherData : option (gmap string value)) : value :=
  let shown := JS.opt_read (city_info_of weatherData) "name" in
  if JS.to_boolean shown then shown else VStr "Location".

(** [currentForecast?.weather_description || 'Unknown'] *)
Definition condition_label (weatherData : option (gmap string value)) : value :=
  let shown := JS.opt_read (currentForecast weatherData) "weather_description" in
  if JS.to_boolean shown then shown else VStr "Unknown".

(** The days of the forecast row: [weatherData.daily_forecasts.slice(1, 4)]
    under [weatherData?.daily_forecasts ? ... : placeholders].  [None] is the
    placeholder branch.  Only an array has both [slice] and [map]: a text has
    [slice] and no [map], and the other truthy values have neither. *)
Definition forecast_row (weatherData : option (gmap string value))
  : option (completion (list value)) :=
  let days := match weatherData with
              | Some w => JS.field w "daily_forecasts"
              | None => VUndefined
              end in
  if JS.to_boolean days then
    Some (match days with
          | VArr l => Normal (take 3 (drop 1 l))
          | VStr _ =>
              Throw (TypeError "weatherData.daily_forecasts.slice(...).map is not a function")
          | _ => Throw (TypeError "weatherData.daily_forecasts.slice is not a function")
          end)
  else None.

(** [getWeatherIconUrl]: the argument is an optional text. *)
Definition getWeatherIconUrl (iconCode : option string) : string :=
  match iconCode with
  | None => ""
  | Some code =>
      if negb (JS.to_boolean (VStr code)) then ""
      else "https://openweathermap.org/img/wn/" +:+ code +:+ "@2x.png"
  end.

End Home.


(* ===================================================================== *)
(** ** The geocoder's document, as the interface [NominatimResponse] types it *)
(* ===================================================================== *)

Module Nominatim.

Record Address : Type := {
  city : option string;
  town : option string;
  village : option string;
  county : option string;
  state : option string;
  country : string;
  country_code : string
}.

Record Response : Type := {
  place_id : number;
  licence : string;
  osm_type : string;
  osm_id : number;
  lat : string;
  lon : string;
  display_name : string;
  address : Address;
  boundingbox : list string
}.

(** An optional member is a key that may be missing. *)
Definition optional (k : string) (v : option string) (o : gmap string value)
  : gmap string value :=
  match v with
  | Some s => <[k := VStr s]> o
  | None => o
  end.

Definition address_value (a : Address) : value :=
  VObj (optional "city" (city a)
         (optional "town" (town a)
           (optional "village" (village a)
             (optional "county" (county a)
               (optional "state" (state a)
                 {[ "country" := VStr (country a);
                    "country_code" := VStr (country_code a) ]}))))).

(** The run-time value of a well-shaped document. *)
Definition response_value (r : Response) : value :=
  VObj {[ "place_id" := VNum (place_id r);
          "licence" := VStr (licence r);
          "osm_type" := VStr (osm_type r);
          "osm_id" := VNum (osm_id r);
          "lat" := VStr (lat r);
          "lon" := VStr (lon r);
          "display_name" := VStr (display_name r);
          "address" := address_value (address r);
          "boundingbox" := VArr (VStr <$> boundingbox r) ]}.

(** The display name in the specification's words: prefer city, else town,
    else village, else county, else the placeholder; the first field that is
    present and not empty wins. *)
Fixpoint first_non_empty (fields : list (option string)) (placeholder : string)
  : string :=
  match fields with
  | [] => placeholder
  | None :: rest => first_non_empty rest placeholder
  | Some s :: rest =>
      if String.eqb s "" then first_non_empty rest placeholder else s
  end.

Definition resolved_name (a : Address) : string :=
  first_non_empty [city a; town a; village a; county a] "Unknown Location".

End Nominatim.

(* ===================================================================== *)
(** ** Concrete documents and services for the examples *)
(* ===================================================================== *)

Module Sample.

Definition digit (c : ascii) : option Z :=
  let n := Z.of_nat (nat_of_ascii c) in
  if (48 <=? n) && (n <=? 57) then Some (n - 48) else None.

(** Reads a run of decimal digits: the number read so far, how many digits
    were read, and the rest of the text. *)
Fixpoint read_digits (s : string) (acc : Z) (count : nat) : Z * nat * string :=
  match s with
  | EmptyString => (acc, count, s)
  | String c rest =>
      match digit c with
      | Some d => read_digits rest (10 * acc + d) (S count)
      | None => (acc, count, s)
      end
  end.

(** A plain decimal literal [ddd] or [ddd.ddd], all of the text: its digits
    as one integer and the number of digits after the point. *)
Definition decimal (s : string) : option (Z * nat) :=
  let '(whole, n, rest) := read_digits s 0 0 in
  match rest with
  | EmptyString => if (0 <? n)%nat then Some (whole, 0%nat) else None
  | String "."%char fraction =>
      let '(all, m, rest') := read_digits fraction whole 0 in
      match rest' with
      | EmptyString => if (0 <? n + m)%nat then Some (all, m) else None
      | String _ _ => None
      end
  | String _ _ => None
  end.

Definition quotient (m : Z) (k : nat) : number :=
  SFdiv 53 1024 (number_of_Z m) (number_of_Z (10 ^ Z.of_nat k)).

(** An instance of [parseFloat] to run the examples with.  It agrees with
    the language's function on numbers, on [undefined], [null], booleans and
    objects (all [NaN]), and on texts of the form [ddd] or [ddd.ddd] with an
    optional minus sign in front and at most fifteen digits, where the
    division below is the correctly rounded one; other texts and arrays do
    not occur in the examples and read as [NaN] here. *)
Definition parseFloat (v : value) : number :=
  match v with
  | VNum (S754_zero _) => S754_zero false
  | VNum n => n
  | VStr (String "-"%char s) =>
      match decimal s with
      | Some (m, k) => SFopp (quotient m k)
      | None => S754_nan
      end
  | VStr s =>
      match decimal s with
      | Some (m, k) => quotient m k
      | None => S754_nan
      end
  | VUndefined | VNull | VBool _ | VArr _ | VObj _ => S754_nan
  end.

(** The number a decimal literal of the examples denotes. *)
Definition num (literal : string) : number := parseFloat (VStr literal).

(** Thika, Kenya: a town, with a county and no state. *)
Definition thika : Nominatim.Response := {|
  Nominatim.place_id := number_of_Z 48021;
  Nominatim.licence := "Data (c) OpenStreetMap contributors, ODbL 1.0";
  Nominatim.osm_type := "relation";
  Nominatim.osm_id := number_of_Z 3495538;
  Nominatim.lat := "-1.0333";
  Nominatim.lon := "37.0693";
  Nominatim.display_name := "Thika, Kiambu, Kenya";
  Nominatim.address := {|
    Nominatim.city := None;
    Nominatim.town := Some "Thika";
    Nominatim.village := None;
    Nominatim.county := Some "Kiambu";
    Nominatim.state := None;
    Nominatim.country := "Kenya";
    Nominatim.country_code := "ke" |};
  Nominatim.boundingbox := ["-1.08"; "-0.98"; "37.02"; "37.12"]
|}.

(** What the forecast backend answers for a point near Thika. *)
Definition thika_forecast : gmap string value :=
  {[ "city" := VObj {[ "id" := VNum (number_of_Z 179330);
                       "name" := VStr "Thika";
                       "country" := VStr "KE" ]};
     "daily_forecasts" := VArr [];
     "city_info" := VObj {[ "name" := VStr "Thika Town";
                            "country" := VStr "KE";
                            "state" := VStr "Central";
                            "lat" := VNum (num "-1.05");
                            "lon" := VNum (num "37.08") ]} ]}.

Definition timeout : exception :=
  AxiosError "timeout of 10000ms exceeded" "ECONNABORTED".

(** Both services answer. *)
Definition online : Network := {|
  nominatim := fun _ => Resolved (Nominatim.response_value thika);
  backend := fun _ => Resolved thika_forecast
|}.

(** The geocoder times out; the backend answers. *)
Definition geocoder_down : Network := {|
  nominatim := fun _ => Rejected timeout;
  backend := fun _ => Resolved thika_forecast
|}.

(** The geocoder answers with a document that has an address and nothing
    else. *)
Definition bare_address : value := VObj {[ "address" := VObj ∅ ]}.

Definition geocoder_bare : Network := {|
  nominatim := fun _ => Resolved bare_address;
  backend := fun _ => Resolved thika_forecast
|}.

(** A document with an address whose [lat] has no text. *)
Definition textless_latitude : value :=
  VObj {[ "address" := VObj ∅;
          "lat" := VObj {[ "toString" := VNum (number_of_Z 1) ]} ]}.

Definition geocoder_textless : Network := {|
  nominatim := fun _ => Resolved textless_latitude;
  backend := fun _ => Resolved thika_forecast
|}.


(** The input coordinates of the examples: a point near Thika that is neither
    the geocoder's nor the backend's. *)
Definition here_lat : value := VNum (num "-1.04").
Definition here_lon : value := VNum (num "37.07").

(** A page that shows a forecast for a place on the equator. *)
Definition equator_page : PageState := {|
  city := "Nanyuki";
  weatherData :=
    Some {[ "city_info" := VObj {[ "name" := VStr "Nanyuki";
                                   "country" := VStr "KE";
                                   "lat" := VNum (num "0");
                                   "lon" := VNum (num "37.07") ]} ]};
  loading := false;
  error := None;
  units := metric;
  geoLoading := false
|}.

(** A page that shows the forecast for Thika. *)
Definition thika_page : PageState := {|
  city := "Thika";
  weatherData := Some thika_forecast;
  loading := false;
  error := None;
  units := imperial;
  geoLoading := false
|}.

(** The backend does not answer in time. *)
Definition backend_timeout : exception :=
  AxiosError "timeout of 20000ms exceeded" "ECONNABORTED".

Definition backend_down : Network := {|
  nominatim := fun _ => Resolved (Nominatim.response_value thika);
  backend := fun _ => Rejected backend_timeout
|}.

(** The backend answers 404 with a message of its own. *)
Definition not_found : exception :=
  AxiosError "Request failed with status code 404" "ERR_BAD_REQUEST".

Definition unknown_city : Network := {|
  nominatim := fun _ => Resolved (Nominatim.response_value thika);
  backend := fun _ => Rejected not_found
|}.

(** The view of the exceptions above that [handleSearch] takes: the 404
    carries a response with an error text, the time-out carries none. *)
Definition response_error (e : exception) : option (option string) :=
  match e with
  | AxiosError _ "ERR_BAD_REQUEST" => Some (Some "City not found")
  | _ => None
  end.

(** A fresh page with a city typed into the search box, spaces included. *)
Definition typed_page : PageState := {|
  city := " Thika ";
  weatherData := None;
  loading := false;
  error := Some "old";
  units := metric;
  geoLoading := false
|}.

(** A fresh page with nothing but white space in the search box. *)
Definition blank_page : PageState := {|
  city := String (ascii_of_nat 9) (String (ascii_of_nat 32) (String (ascii_of_nat 160) ""));
  weatherData := None;
  loading := false;
  error := None;
  units := metric;
  geoLoading := false
|}.

(** A forecast with one hourly sample that has wind and no [main]. *)
Definition windy_forecast : gmap string value :=
  {[ "daily_forecasts" :=
       VArr [VObj {[ "date" := VStr "2025-05-01";
                     "hourly_forecasts" :=
                       VArr [VObj {[ "wind" := VObj {[ "deg" := VNum (num "90") ]} ]}] ]};
             VObj {[ "day_of_week" := VStr "Friday" ]}] ]}.

(** A page as it first renders: nothing typed, nothing shown. *)
Definition fresh_page : PageState := {|
  city := "";
  weatherData := None;
  loading := false;
  error := None;
  units := metric;
  geoLoading := false
|}.

End Sample.

(* ===================================================================== *)
(** ** The vocabulary of the statements *)
(* ===================================================================== *)

(** The three requests the service layer issues. *)
Definition geocode_request (lat lon : value) : event :=
  Request nominatimApi "/reverse"
    [("lat", lat); ("lon", lon); ("format", VStr "json");
     ("zoom", VNum (number_of_Z 10)); ("addressdetails", VNum (number_of_Z 1))].

Definition coords_request (lat lon : value) (units : option Units) : event :=
  Request weatherApi "/api/weather/forecast/coordinates"
    [("lat", lat); ("lon", lon);
     ("units", units_value (WeatherService.units_or_default units))].

Definition city_request (city : string) (units : option Units) : event :=
  Request weatherApi "/api/weather/forecast/city"
    [("city", VStr city);
     ("units", units_value (WeatherService.units_or_default units))].

Definition geocode_label : string := "Error getting location from coordinates:".
Definition city_label : string := "Error fetching weather forecast:".
Definition coords_label : string := "Error fetching weather forecast by coordinates:".

(** [a || b] on values already computed. *)
Definition or_value (a b : value) : value := if JS.to_boolean a then a else b.

(** The value of the [name] expression for an address that can be read. *)
Definition name_of (address : value) : value :=
  or_value
    (or_value
       (or_value
          (or_value (JS.read address "city") (JS.read address "town"))
          (JS.read address "village"))
       (JS.read address "county"))
    (VStr "Unknown Location").

(** The object literal that [getLocationFromCoords] returns. *)
Definition descriptor (parseFloat : value -> number) (data address : value)
  : CityInfo :=
  {| name := name_of address;
     country := JS.read address "country";
     state := JS.read address "state";
     lat := parseFloat (JS.read data "lat");
     lon := parseFloat (JS.read data "lon") |}.

(** The body of the [try] block once the document has arrived: the reads
    of the address, then the conversions of [lat] and of [lon]. *)
Definition located (parseFloat : value -> number) (data : value)
  : completion CityInfo :=
  match JS.get data "address" with
  | Throw e => Throw e
  | Normal address =>
      match JS.get address "city" with
      | Throw e => Throw e
      | Normal _ =>
          match JS.parse_float parseFloat (JS.read data "lat") with
          | Throw e => Throw e
          | Normal _ =>
              match JS.parse_float parseFloat (JS.read data "lon") with
              | Throw e => Throw e
              | Normal _ => Normal (descriptor parseFloat data address)
              end
          end
      end
  end.

(** The forecast that [getForecastByCoords] returns for a geocoding result
    and a backend document. *)
Definition merged (locationInfo : option CityInfo) (weatherData : gmap string value)
  : gmap string value :=
  match locationInfo with
  | Some info =>
      <["city_info" :=
          VObj (WeatherService.merge_city_info (JS.field weatherData "city_info") info)]>
        weatherData
  | None => weatherData
  end.

(** The document has an [address] member that is neither [undefined] nor
    [null]. *)
Definition has_address (data : value) : bool :=
  match JS.get data "address" with
  | Normal address => negb (JS.nullish address)
  | Throw _ => false
  end.

(** The document's [lat] and [lon] both have a text, so that [parseFloat]
    returns on them. *)
Definition coordinates_convert (data : value) : bool :=
  negb (JS.to_string_throws (JS.read data "lat"))
  && negb (JS.to_string_throws (JS.read data "lon")).

Definition is_request (e : event) : bool :=
  match e with
  | Request _ _ _ => true
  | _ => false
  end.

Definition is_console (e : event) : bool :=
  match e with
  | ConsoleError _ _ => true
  | _ => false
  end.

(** The requests of a history, in the order they were issued. *)
Definition requests (h : list event) : list event := filter is_request h.

(** What a setter call does to the cells at the next render.  After
    [setCityValue] the cell [city] holds a value that is no text, for which
    [PageState] has no place: the cells are left as they were, and the
    statements about the cells are made for histories without that call. *)
Definition apply_setter (st : PageState) (c : setter) : PageState :=
  match c with
  | setCity v =>
      {| city := v; weatherData := weatherData st; loading := loading st;
         error := error st; units := units st; geoLoading := geoLoading st |}
  | setCityValue _ => st
  | setWeatherData v =>
      {| city := city st; weatherData := v; loading := loading st;
         error := error st; units := units st; geoLoading := geoLoading st |}
  | setLoading v =>
      {| city := city st; weatherData := weatherData st; loading := v;
         error := error st; units := units st; geoLoading := geoLoading st |}
  | setError v =>
      {| city := city st; weatherData := weatherData st; loading := loading st;
         error := v; units := units st; geoLoading := geoLoading st |}
  | setGeoLoading v =>
      {| city := city st; weatherData := weatherData st; loading := loading st;
         error := error st; units := units st; geoLoading := v |}
  end.

(** The cells after the setter calls of a history, applied in order. *)
Definition rendered (st : PageState) (h : list event) : PageState :=
  fold_left (fun s e => match e with
                        | StateSet c => apply_setter s c
                        | _ => s
                        end) h st.

(** The [units] parameter of a request, if it has one. *)
Definition units_param (e : event) : option value :=
  match e with
  | Request _ _ params =>
      (fun found : nat * (string * value) => snd (snd found))
        <$> list_find (fun p : string * value => fst p = "units"%string) params
  | _ => None
  end.

(** The requests a refresh issues, read off the cells. *)
Definition refetch_requests (st : PageState) : list event :=
  let city_info := Home.city_info_of (weatherData st) in
  let by_name :=
    if negb (String.eqb (city st) "") then [city_request (city st) (Some (units st))]
    else [] in
  if JS.to_boolean city_info then
    if JS.to_boolean (JS.read city_info "lat")
       && JS.to_boolean (JS.read city_info "lon")
    then [geocode_request (JS.read city_info "lat") (JS.read city_info "lon");
          coords_request (JS.read city_info "lat") (JS.read city_info "lon")
            (Some (units st))]
    else by_name
  else by_name.

(** The events of a search that goes out, up to the request. *)
Definition search_prefix (st : PageState) : list event :=
  [StateSet (setLoading true); StateSet (setError None);
   city_request (city st) (Some (units st))].

(** The name that goes into the search box after a fetch by position: the
    forecast's [city_info?.name] when it is a non-empty text. *)
Definition shown_name (data : gmap string value) : option string :=
  match JS.opt_read (JS.field data "city_info") "name" with
  | VStr s => if String.eqb s "" then None else Some s
  | _ => None
  end.

(** The forecast's [city_info?.name] is a text or is falsy, as in every
    document of the declared type. *)
Definition name_is_text (data : gmap string value) : bool :=
  match JS.opt_read (JS.field data "city_info") "name" with
  | VStr _ => true
  | v => negb (JS.to_boolean v)
  end.

(** The setter call that [show_name] records for a forecast. *)
Definition name_events (data : gmap string value) : list event :=
  let name := JS.opt_read (JS.field data "city_info") "name" in
  if JS.to_boolean name then
    [StateSet (match name with
               | VStr s => setCity s
               | _ => setCityValue name
               end)]
  else [].



(** The error text [getLocationWeather] shows for an exception. *)
Definition location_message (e : exception) : string :=
  if bool_decide (Home.code_of e = Some "ECONNABORTED"%string) then
    "Connection timed out. The weather server might be slow or unavailable. Try searching by city name instead."
  else message_of e.

(** The setter calls [getLocationWeather] starts with once geolocation is
    there. *)
Definition locate_prefix : list event :=
  [StateSet (setGeoLoading true); StateSet (setError None)].

Definition is_setter (e : event) : bool :=
  match e with
  | StateSet _ => true
  | _ => false
  end.

(** The setter calls a refresh by coordinates starts with. *)
Definition refresh_prefix : list event :=
  [StateSet (setError None); StateSet (setGeoLoading true)].

(** A text that [trim] empties: nothing but white space. *)
Definition blank (s : string) : bool :=
  forallb JS.is_white_space (String.list_ascii_of_string s).

(* ===================================================================== *)
(** ** Equations of the monad and of the language *)
(* ===================================================================== *)

Lemma bind_lift_normal {A B} (a : A) (k : A -> Async B) h :
  bind (lift (Normal a)) k h = k a h.
Proof. reflexivity. Qed.

Lemma bind_run {A B} (m : Async A) (k : A -> Async B) h a h' :
  m h = (Normal a, h') -> bind m k h = k a h'.
Proof. intros E. unfold bind. now rewrite E. Qed.

Lemma or_else_run (a b : Async value) h v h' :
  a h = (Normal v, h') ->
  (a ||| b)%async h = if JS.to_boolean v then (Normal v, h') else b h'.
Proof.
  intros E. unfold or_else. rewrite (bind_run _ _ _ _ _ E).
  now destruct (JS.to_boolean v).
Qed.

Lemma and_also_values (x y : value) h :
  (lift (Normal x) &&& lift (Normal y))%async h
  = (Normal (if JS.to_boolean x then y else x), h).
Proof. unfold and_also, bind, lift, ret. now destruct (JS.to_boolean x). Qed.

Lemma get_readable v k : JS.nullish v = false -> JS.get v k = Normal (JS.read v k).
Proof. now destruct v. Qed.

Lemma get_nullish v k : JS.nullish v = true -> exists e, JS.get v k = Throw e.
Proof. destruct v; try discriminate; intros _; eexists; reflexivity. Qed.

Lemma truthy_readable v : JS.to_boolean v = true -> JS.nullish v = false.
Proof. now destruct v. Qed.

(** A value with a truthy member is itself neither nullish nor falsy. *)
Lemma truthy_member v k :
  JS.to_boolean (JS.read v k) = true ->
  JS.nullish v = false /\ JS.to_boolean v = true.
Proof.
  destruct v as [| | b | n | s | l | o]; cbn; intros H; try discriminate; auto.
  destruct s; [|auto]. revert H. unfold JS.indexed. cbn.
  destruct (String.eqb k "length"); discriminate.
Qed.

Lemma get_normal_readable v k x : JS.get v k = Normal x -> JS.nullish v = false.
Proof. now destruct v. Qed.

Lemma has_address_located parseFloat data :
  has_address data = true -> coordinates_convert data = true ->
  exists address,
    JS.get data "address" = Normal address /\ JS.nullish address = false /\
    located parseFloat data = Normal (descriptor parseFloat data address).
Proof.
  unfold has_address, coordinates_convert, located, JS.parse_float.
  destruct (JS.get data "address") as [a|e]; [|discriminate].
  intros Ha Hc. apply negb_true_iff in Ha. apply andb_true_iff in Hc as [Hlat Hlon].
  apply negb_true_iff in Hlat, Hlon.
  exists a. split; [reflexivity|split; [exact Ha|]].
  now rewrite (get_readable _ _ Ha), Hlat, Hlon.
Qed.

Lemma located_readable parseFloat data address :
  JS.get data "address" = Normal address -> JS.nullish address = false ->
  coordinates_convert data = true ->
  located parseFloat data = Normal (descriptor parseFloat data address).
Proof.
  intros Hd Ha Hc.
  destruct (has_address_located parseFloat data) as (a & Hd' & _ & ->); [|exact Hc|].
  - unfold has_address. now rewrite Hd, Ha.
  - congruence.
Qed.

(** A descriptor comes out of a document with an address and coordinates
    that have a text, and out of no other. *)
Lemma located_descriptor parseFloat data info :
  located parseFloat data = Normal info ->
  has_address data = true /\ coordinates_convert data = true /\
  lat info = parseFloat (JS.read data "lat") /\
  lon info = parseFloat (JS.read data "lon").
Proof.
  unfold has_address, coordinates_convert, located, JS.parse_float.
  destruct (JS.get data "address") as [a|e]; [|discriminate].
  destruct (JS.get a "city") as [c|e] eqn:Hc; [|discriminate].
  apply get_normal_readable in Hc. rewrite Hc.
  destruct (JS.to_string_throws (JS.read data "lat")); [discriminate|].
  destruct (JS.to_string_throws (JS.read data "lon")); [discriminate|].
  intros [= <-]. repeat split.
Qed.

Lemma textless_located parseFloat data :
  coordinates_convert data = false -> exists e, located parseFloat data = Throw e.
Proof.
  intros Hc. destruct (located parseFloat data) as [info|e] eqn:E; [|now exists e].
  apply located_descriptor in E as (_ & E & _). congruence.
Qed.

Lemma no_address_located parseFloat data :
  has_address data = false -> exists e, located parseFloat data = Throw e.
Proof.
  unfold has_address, located. destruct (JS.get data "address") as [a|e].
  - intros Ha. apply negb_false_iff in Ha.
    destruct (get_nullish a "city" Ha) as [e ->]. now exists e.
  - intros _. now exists e.
Qed.

(* ===================================================================== *)
(** ** [getLocationFromCoords] *)
(* ===================================================================== *)

Section Geocoding.

Variable parseFloat : value -> number.
Variable net : Network.

Abbreviation getLocationFromCoords :=
  (WeatherService.getLocationFromCoords parseFloat net).

Lemma address_member_run data k h :
  WeatherService.address_member data k h =
  (match JS.get data "address" with
   | Normal address => JS.get address k
   | Throw e => Throw e
   end, h).
Proof.
  unfold WeatherService.address_member, bind, lift.
  now destruct (JS.get data "address").
Qed.

Lemma address_member_readable data address k h :
  JS.get data "address" = Normal address -> JS.nullish address = false ->
  WeatherService.address_member data k h = (Normal (JS.read address k), h).
Proof.
  intros Hd Ha. rewrite address_member_run, Hd. now rewrite (get_readable _ _ Ha).
Qed.

(** The [name] expression, run on a document whose address can be read. *)
Lemma name_run data address h :
  JS.get data "address" = Normal address -> JS.nullish address = false ->
  (WeatherService.address_member data "city"
   ||| WeatherService.address_member data "town"
   ||| WeatherService.address_member data "village"
   ||| WeatherService.address_member data "county"
   ||| ret (VStr "Unknown Location"))%async h
  = (Normal (name_of address), h).
Proof.
  intros Hd Ha.
  pose proof (fun k => address_member_readable data address k h Hd Ha) as M.
  set (a1 := WeatherService.address_member data "city").
  set (a2 := WeatherService.address_member data "town").
  set (a3 := WeatherService.address_member data "village").
  set (a4 := WeatherService.address_member data "county").
  unfold name_of.
  set (v1 := or_value (JS.read address "city") (JS.read address "town")).
  set (v2 := or_value v1 (JS.read address "village")).
  set (v3 := or_value v2 (JS.read address "county")).
  assert (C1 : (a1 ||| a2)%async h = (Normal v1, h)).
  { rewrite (or_else_run _ _ _ _ _ (M "city")). unfold v1, or_value.
    destruct (JS.to_boolean (JS.read address "city")); [reflexivity|apply M]. }
  assert (C2 : (a1 ||| a2 ||| a3)%async h = (Normal v2, h)).
  { rewrite (or_else_run _ _ _ _ _ C1). unfold v2, or_value.
    destruct (JS.to_boolean v1); [reflexivity|apply M]. }
  assert (C3 : (a1 ||| a2 ||| a3 ||| a4)%async h = (Normal v3, h)).
  { rewrite (or_else_run _ _ _ _ _ C2). unfold v3, or_value.
    destruct (JS.to_boolean v2); [reflexivity|apply M]. }
  rewrite (or_else_run _ _ _ _ _ C3). unfold or_value.
  now destruct (JS.to_boolean v3).
Qed.

(** The whole function, one case per way the request and the document can
    turn out. *)
Lemma getLocationFromCoords_run lat lon h :
  getLocationFromCoords lat lon h =
  match nominatim net (h ++ [geocode_request lat lon]) with
  | Rejected e =>
      (Normal None,
       h ++ [geocode_request lat lon; Settled nominatimApi false;
             ConsoleError geocode_label e])
  | Resolved data =>
      match located parseFloat data with
      | Normal info =>
          (Normal (Some info),
           h ++ [geocode_request lat lon; Settled nominatimApi true])
      | Throw e =>
          (Normal None,
           h ++ [geocode_request lat lon; Settled nominatimApi true;
                 ConsoleError geocode_label e])
      end
  end.
Proof.
  unfold WeatherService.getLocationFromCoords, try_catch, bind at 1, axios_get.
  fold (geocode_request lat lon).
  destruct (nominatim net (h ++ [geocode_request lat lon])) as [data|e].
  - set (h2 := (h ++ [geocode_request lat lon]) ++ [Settled nominatimApi true]).
    assert (E2 : h2 = h ++ [geocode_request lat lon; Settled nominatimApi true])
      by (unfold h2; now rewrite <- app_assoc).
    unfold located.
    destruct (JS.get data "address") as [address|e] eqn:Hd.
    + destruct (JS.nullish address) eqn:Ha.
      * destruct (get_nullish address "city" Ha) as [e He]. rewrite He.
        unfold bind at 1, or_else at 1, bind at 1, or_else at 1, bind at 1,
          or_else at 1, bind at 1, or_else at 1, bind at 1.
        rewrite address_member_run, Hd, He. cbn.
        unfold console_error, bind, ret. rewrite E2, <- app_assoc. reflexivity.
      * rewrite (get_readable _ _ Ha).
        rewrite (bind_run _ _ _ _ _ (name_run data address h2 Hd Ha)).
        rewrite (bind_run _ _ _ _ _ (address_member_readable data address "country" h2 Hd Ha)).
        rewrite (bind_run _ _ _ _ _ (address_member_readable data address "state" h2 Hd Ha)).
        assert (Hn : JS.nullish data = false) by (eapply get_normal_readable; eauto).
        rewrite (get_readable data "lat" Hn), bind_lift_normal.
        unfold JS.parse_float.
        destruct (JS.to_string_throws (JS.read data "lat")).
        { cbn. unfold console_error, bind, ret. rewrite E2, <- app_assoc. reflexivity. }
        rewrite bind_lift_normal, (get_readable data "lon" Hn), bind_lift_normal.
        destruct (JS.to_string_throws (JS.read data "lon")).
        { cbn. unfold console_error, bind, ret. rewrite E2, <- app_assoc. reflexivity. }
        rewrite bind_lift_normal. unfold ret, descriptor. now rewrite E2.
    + unfold bind at 1, or_else at 1, bind at 1, or_else at 1, bind at 1,
        or_else at 1, bind at 1, or_else at 1, bind at 1.
      rewrite address_member_run, Hd. cbn.
      unfold console_error, bind, ret. rewrite E2, <- app_assoc. reflexivity.
  - cbn. unfold console_error, bind, ret. rewrite <- !app_assoc. reflexivity.
Qed.

(** Whatever happens, the function returns: it never completes with a
    [throw]. *)
Lemma getLocationFromCoords_returns latitude longitude h :
  exists result h', getLocationFromCoords latitude longitude h = (Normal result, h').
Proof.
  rewrite getLocationFromCoords_run.
  destruct (nominatim net _) as [data|e]; [destruct (located parseFloat data)|];
    eauto.
Qed.

(** The typed address, read back member by member. *)
Lemma read_address (a : Nominatim.Address) :
  JS.read (Nominatim.address_value a) "city" = from_option VStr VUndefined (Nominatim.city a) /\
  JS.read (Nominatim.address_value a) "town" = from_option VStr VUndefined (Nominatim.town a) /\
  JS.read (Nominatim.address_value a) "village" = from_option VStr VUndefined (Nominatim.village a) /\
  JS.read (Nominatim.address_value a) "county" = from_option VStr VUndefined (Nominatim.county a) /\
  JS.read (Nominatim.address_value a) "state" = from_option VStr VUndefined (Nominatim.state a).
Proof.
  destruct a as [[c|] [t|] [v|] [co|] [s|] cn cc]; repeat split; reflexivity.
Qed.

(** The code's [name] expression computes the specification's display
    name. *)
Lemma name_of_address (a : Nominatim.Address) :
  name_of (Nominatim.address_value a) = VStr (Nominatim.resolved_name a).
Proof.
  unfold name_of, Nominatim.resolved_name.
  destruct (read_address a) as (-> & -> & -> & -> & _).
  destruct a as [c t v co s cn cc].
  cbn [Nominatim.city Nominatim.town Nominatim.village Nominatim.county].
  destruct c as [[|? ?]|], t as [[|? ?]|], v as [[|? ?]|], co as [[|? ?]|];
    reflexivity.
Qed.

Lemma well_shaped_has_address (r : Nominatim.Response) :
  JS.get (Nominatim.response_value r) "address"
  = Normal (Nominatim.address_value (Nominatim.address r)).
Proof. reflexivity. Qed.

(** C3. For every address record of the geocoder, the display name that
    [getLocationFromCoords] resolves is the first field that is present and
    not empty among city, town, village and county, in that order, and the
    text "Unknown Location" when there is none. *)
Theorem display_name_priority latitude longitude h (r : Nominatim.Response) :
  nominatim net (h ++ [geocode_request latitude longitude])
    = Resolved (Nominatim.response_value r) ->
  exists info,
    fst (getLocationFromCoords latitude longitude h) = Normal (Some info) /\
    name info = VStr (Nominatim.resolved_name (Nominatim.address r)).
Proof.
  intros Hnet. rewrite getLocationFromCoords_run, Hnet.
  unfold located. rewrite well_shaped_has_address.
  rewrite (get_readable (Nominatim.address_value _) "city" eq_refl).
  eexists. split; [reflexivity|]. apply name_of_address.
Qed.

(** C4, as the code has it. For every input and every way the geocoding
    request can end, [getLocationFromCoords] returns and never throws.  What
    it returns is [null] when the request was rejected (time-out, network
    failure, status outside 2xx), when the document has no [address] member
    to read (the document or its address is [undefined] or [null], as for a
    body left as unparsed text), and when the document's [lat] or [lon] has
    no text for [parseFloat] to read. *)
Theorem getLocationFromCoords_absorbs latitude longitude h :
  exists result h',
    getLocationFromCoords latitude longitude h = (Normal result, h') /\
    match nominatim net (h ++ [geocode_request latitude longitude]) with
    | Rejected _ => result = None
    | Resolved data =>
        (has_address data = false -> result = None) /\
        (coordinates_convert data = false -> result = None)
    end.
Proof.
  rewrite getLocationFromCoords_run.
  destruct (nominatim net _) as [data|e].
  - destruct (located parseFloat data) as [info|e] eqn:E.
    + apply located_descriptor in E as (Ha & Hc & _).
      do 2 eexists. split; [reflexivity|]. split; congruence.
    + do 2 eexists. split; [reflexivity|]. now split.
  - do 2 eexists. split; [reflexivity|]. reflexivity.
Qed.

(** C8. Whenever [getLocationFromCoords] returns a descriptor, the
    descriptor's latitude and longitude are [parseFloat] of the [lat] and
    [lon] of the document the geocoder answered with, whatever coordinates
    the caller passed in; and it returns a descriptor whenever the geocoder
    answers with a document whose address the code can read and whose [lat]
    and [lon] have a text. *)
Theorem descriptor_coordinates_from_response latitude longitude h data :
  nominatim net (h ++ [geocode_request latitude longitude]) = Resolved data ->
  (forall info,
     fst (getLocationFromCoords latitude longitude h) = Normal (Some info) ->
     lat info = parseFloat (JS.read data "lat") /\
     lon info = parseFloat (JS.read data "lon")) /\
  (has_address data = true -> coordinates_convert data = true ->
   exists info,
     fst (getLocationFromCoords latitude longitude h) = Normal (Some info)).
Proof.
  intros Hnet. rewrite getLocationFromCoords_run, Hnet. split.
  - intros info. destruct (located parseFloat data) as [found|e] eqn:E; [|discriminate].
    intros [= <-]. now apply located_descriptor in E as (_ & _ & Hlat & Hlon).
  - intros Ha Hc.
    destruct (has_address_located parseFloat data Ha Hc) as (address & _ & _ & ->).
    eexists. reflexivity.
Qed.

End Geocoding.

(* ===================================================================== *)
(** ** [getForecastByCity] and [getForecastByCoords] *)
(* ===================================================================== *)

Section Forecast.

Variable parseFloat : value -> number.
Variable net : Network.

Abbreviation getLocationFromCoords :=
  (WeatherService.getLocationFromCoords parseFloat net).
Abbreviation getForecastByCity := (WeatherService.getForecastByCity net).
Abbreviation getForecastByCoords :=
  (WeatherService.getForecastByCoords parseFloat net).

Lemma getForecastByCity_run city units h :
  getForecastByCity city units h =
  match backend net (h ++ [city_request city units]) with
  | Resolved data =>
      (Normal data, h ++ [city_request city units; Settled weatherApi true])
  | Rejected e =>
      (Throw e,
       h ++ [city_request city units; Settled weatherApi false;
             ConsoleError city_label e])
  end.
Proof.
  unfold WeatherService.getForecastByCity, try_catch, axios_get.
  fold (city_request city units).
  destruct (backend net _) as [data|e].
  - now rewrite <- app_assoc.
  - cbn. unfold console_error, bind, throw. now rewrite <- !app_assoc.
Qed.

Lemma getForecastByCoords_run latitude longitude units h locationInfo h1 :
  getLocationFromCoords latitude longitude h = (Normal locationInfo, h1) ->
  getForecastByCoords latitude longitude units h =
  match backend net (h1 ++ [coords_request latitude longitude units]) with
  | Resolved weatherData =>
      (Normal (merged locationInfo weatherData),
       h1 ++ [coords_request latitude longitude units; Settled weatherApi true])
  | Rejected e =>
      (Throw e,
       h1 ++ [coords_request latitude longitude units; Settled weatherApi false;
              ConsoleError coords_label e])
  end.
Proof.
  intros Hloc.
  unfold WeatherService.getForecastByCoords, try_catch.
  rewrite (bind_run _ _ _ _ _ Hloc). unfold bind at 1, axios_get.
  fold (coords_request latitude longitude units).
  destruct (backend net _) as [weatherData|e].
  - rewrite <- app_assoc. now destruct locationInfo.
  - cbn. unfold console_error, bind, throw. now rewrite <- !app_assoc.
Qed.

Lemma merge_city_info_lookup (city_info : value) (info : CityInfo) (k : string) :
  WeatherService.merge_city_info city_info info !! k =
  if decide (k = "state") then Some (state info)
  else if decide (k = "country") then Some (country info)
  else if decide (k = "name") then Some (name info)
  else JS.own_props city_info !! k.
Proof.
  unfold WeatherService.merge_city_info.
  repeat case_decide; subst; simplify_map_eq; reflexivity.
Qed.

(** C5. If the backend request of [getForecastByCity] is rejected, the very
    exception it was rejected with is thrown to the caller; if it resolves,
    the document is returned as it came. *)
Theorem getForecastByCity_propagates city units h :
  match backend net (h ++ [city_request city units]) with
  | Rejected e => fst (getForecastByCity city units h) = Throw e
  | Resolved data => fst (getForecastByCity city units h) = Normal data
  end.
Proof.
  rewrite getForecastByCity_run. now destruct (backend net _).
Qed.

(** C1. When the geocoding step gives a descriptor, the forecast returned is
    the backend's document with [city_info.name], [city_info.country] and
    [city_info.state] set to the descriptor's values and nothing else
    changed: every other member of the document and every other member of
    [city_info] (its [lat] and [lon] among them) is the backend's.  When the
    geocoding step gives [null], the forecast returned is the backend's
    document itself. *)
Theorem getForecastByCoords_merge
    latitude longitude units h locationInfo h1 weatherData :
  getLocationFromCoords latitude longitude h = (Normal locationInfo, h1) ->
  backend net (h1 ++ [coords_request latitude longitude units]) = Resolved weatherData ->
  exists result,
    fst (getForecastByCoords latitude longitude units h) = Normal result /\
    match locationInfo with
    | None => result = weatherData
    | Some info =>
        (forall k, k <> "city_info" -> result !! k = weatherData !! k) /\
        exists city_info,
          result !! "city_info" = Some (VObj city_info) /\
          city_info !! "name" = Some (name info) /\
          city_info !! "country" = Some (country info) /\
          city_info !! "state" = Some (state info) /\
          forall k, k <> "name" -> k <> "country" -> k <> "state" ->
            city_info !! k = JS.own_props (JS.field weatherData "city_info") !! k
    end.
Proof.
  intros Hloc Hnet.
  rewrite (getForecastByCoords_run _ _ _ _ _ _ Hloc), Hnet.
  eexists. split; [reflexivity|].
  destruct locationInfo as [info|]; [|reflexivity]. cbn [merged]. split.
  - intros k Hk. now rewrite lookup_insert_ne.
  - eexists. split; [apply lookup_insert_eq|].
    rewrite !merge_city_info_lookup. repeat split.
    intros k H1 H2 H3. rewrite merge_city_info_lookup.
    repeat case_decide; congruence.
Qed.

(** C2, as the code has it. The [lat] and [lon] of the returned forecast's
    [city_info] are those of the backend's document, which was asked for the
    input coordinates; they are never the geocoder's, and they are the
    input's only when the backend echoes them. *)
Theorem getForecastByCoords_keeps_backend_coordinates
    latitude longitude units h locationInfo h1 weatherData backend_info :
  getLocationFromCoords latitude longitude h = (Normal locationInfo, h1) ->
  backend net (h1 ++ [coords_request latitude longitude units]) = Resolved weatherData ->
  weatherData !! "city_info" = Some (VObj backend_info) ->
  exists result city_info,
    fst (getForecastByCoords latitude longitude units h) = Normal result /\
    result !! "city_info" = Some (VObj city_info) /\
    city_info !! "lat" = backend_info !! "lat" /\
    city_info !! "lon" = backend_info !! "lon".
Proof.
  intros Hloc Hnet Hci.
  rewrite (getForecastByCoords_run _ _ _ _ _ _ Hloc), Hnet.
  destruct locationInfo as [info|]; cbn [merged fst].
  - do 2 eexists. split; [reflexivity|]. split; [apply lookup_insert_eq|].
    rewrite !merge_city_info_lookup. unfold JS.field, JS.read. rewrite Hci.
    split; reflexivity.
  - exists weatherData, backend_info. auto.
Qed.

(** C10. When the geocoding succeeds (the geocoder answers with a document
    whose address can be read and whose [lat] and [lon] have a text) and the
    address has no [state] member, the returned forecast's
    [city_info.state] is [undefined], whatever region the backend's document
    carried. *)
Theorem geocoder_without_state_erases_region
    latitude longitude units h data address weatherData :
  nominatim net (h ++ [geocode_request latitude longitude]) = Resolved data ->
  JS.get data "address" = Normal address ->
  JS.nullish address = false ->
  coordinates_convert data = true ->
  JS.read address "state" = VUndefined ->
  backend net (h ++ [geocode_request latitude longitude; Settled nominatimApi true;
                     coords_request latitude longitude units])
    = Resolved weatherData ->
  exists result city_info,
    fst (getForecastByCoords latitude longitude units h) = Normal result /\
    result !! "city_info" = Some (VObj city_info) /\
    city_info !! "state" = Some VUndefined.
Proof.
  intros Hgeo Haddr Hreadable Hconvert Hstate Hnet.
  assert (Hloc : getLocationFromCoords latitude longitude h =
                 (Normal (Some (descriptor parseFloat data address)),
                  h ++ [geocode_request latitude longitude; Settled nominatimApi true])).
  { rewrite getLocationFromCoords_run, Hgeo.
    now rewrite (located_readable parseFloat data address Haddr Hreadable Hconvert). }
  rewrite (getForecastByCoords_run _ _ _ _ _ _ Hloc).
  rewrite <- app_assoc. cbn [app]. rewrite Hnet. cbn [merged fst].
  do 2 eexists. split; [reflexivity|]. split; [apply lookup_insert_eq|].
  rewrite merge_city_info_lookup. cbn. now rewrite Hstate.
Qed.

(** C9. Every run of [getForecastByCoords] issues the geocoding request
    first, sees it settle, and only then issues the forecast request, which
    is always issued; in between and afterwards there is console output at
    most. *)
Theorem geocoding_settles_before_forecast_request latitude longitude units h :
  exists geocoded logs1 answered logs2,
    snd (getForecastByCoords latitude longitude units h) =
      h ++ [geocode_request latitude longitude; Settled nominatimApi geocoded]
        ++ logs1
        ++ [coords_request latitude longitude units; Settled weatherApi answered]
        ++ logs2 /\
    Forall (fun e => is_console e = true) logs1 /\
    Forall (fun e => is_console e = true) logs2.
Proof.
  assert (exists locationInfo geocoded logs1,
             getLocationFromCoords latitude longitude h =
             (Normal locationInfo,
              h ++ [geocode_request latitude longitude; Settled nominatimApi geocoded]
                ++ logs1) /\
             Forall (fun e => is_console e = true) logs1)
    as (locationInfo & geocoded & logs1 & Hloc & Hlogs1).
  { rewrite getLocationFromCoords_run.
    destruct (nominatim net _) as [data|e]; [destruct (located parseFloat data)|].
    - exists (Some a), true, []. split; [reflexivity|constructor].
    - exists None, true, [ConsoleError geocode_label e].
      split; [reflexivity|repeat constructor].
    - exists None, false, [ConsoleError geocode_label e].
      split; [reflexivity|repeat constructor]. }
  rewrite (getForecastByCoords_run _ _ _ _ _ _ Hloc).
  exists geocoded, logs1.
  destruct (backend net _) as [weatherData|e]; cbn [snd].
  - exists true, []. rewrite <- !app_assoc. cbn [app].
    split; [reflexivity|]. split; [assumption|constructor].
  - exists false, [ConsoleError coords_label e]. rewrite <- !app_assoc. cbn [app].
    split; [reflexivity|]. split; [assumption|repeat constructor].
Qed.

(** X1. The failure policy of [getForecastByCoords]: the geocoding step
    always returns, so it alone never makes the function throw; when the
    backend request is rejected the very exception is thrown to the caller,
    and when it resolves the merged document is returned. *)
Theorem getForecastByCoords_failure_policy latitude longitude units h :
  exists locationInfo h1,
    getLocationFromCoords latitude longitude h = (Normal locationInfo, h1) /\
    match backend net (h1 ++ [coords_request latitude longitude units]) with
    | Rejected e =>
        fst (getForecastByCoords latitude longitude units h) = Throw e
    | Resolved weatherData =>
        fst (getForecastByCoords latitude longitude units h)
        = Normal (merged locationInfo weatherData)
    end.
Proof.
  destruct (getLocationFromCoords_returns parseFloat net latitude longitude h)
    as (locationInfo & h1 & Hloc).
  exists locationInfo, h1. split; [exact Hloc|].
  rewrite (getForecastByCoords_run _ _ _ _ _ _ Hloc).
  now destruct (backend net _).
Qed.

(** X2. [getForecastByCity] issues one request, to the city endpoint, with
    the city and the units (metric when none are given) as its parameters. *)
Theorem getForecastByCity_one_request city units h :
  exists answered logs,
    snd (getForecastByCity city units h)
    = h ++ [Request weatherApi "/api/weather/forecast/city"
              [("city", VStr city);
               ("units", units_value (default metric units))];
            Settled weatherApi answered] ++ logs /\
    Forall (fun e => is_console e = true) logs.
Proof.
  rewrite getForecastByCity_run.
  destruct (backend net _) as [data|e]; cbn [snd].
  - exists true, []. split; [reflexivity|constructor].
  - exists false, [ConsoleError city_label e].
    split; [reflexivity|repeat constructor].
Qed.

End Forecast.

(* ===================================================================== *)
(** ** The page: [refetchWeather] and [getWindDirection] *)
(* ===================================================================== *)

Section Refetch.

Variable parseFloat : value -> number.
Variable net : Network.

Abbreviation refetchWeather := (Home.refetchWeather parseFloat net).

Lemma requests_app h1 h2 : requests (h1 ++ h2) = requests h1 ++ requests h2.
Proof. apply filter_app. Qed.

Lemma getForecastByCity_requests city units h :
  requests (snd (WeatherService.getForecastByCity net city units h))
  = requests h ++ [city_request city units].
Proof.
  rewrite getForecastByCity_run.
  destruct (backend net _); cbn [snd]; rewrite requests_app; reflexivity.
Qed.

Lemma getForecastByCoords_requests latitude longitude units h :
  requests (snd (WeatherService.getForecastByCoords parseFloat net
                   latitude longitude units h))
  = requests h ++ [geocode_request latitude longitude;
                   coords_request latitude longitude units].
Proof.
  destruct (getLocationFromCoords_returns parseFloat net latitude longitude h)
    as (locationInfo & h1 & Hloc).
  assert (H1 : requests h1 = requests h ++ [geocode_request latitude longitude]).
  { revert Hloc. rewrite getLocationFromCoords_run.
    destruct (nominatim net _) as [data|e]; [destruct (located parseFloat data)|];
      intros [= _ <-]; rewrite requests_app; reflexivity. }
  rewrite (getForecastByCoords_run _ _ _ _ _ _ _ _ Hloc).
  destruct (backend net _); cbn [snd]; rewrite requests_app, H1, <- app_assoc;
    reflexivity.
Qed.

Lemma call_run c h : call c h = (Normal tt, h ++ [StateSet c]).
Proof. reflexivity. Qed.

Lemma refetch_by_city_requests st h :
  requests (snd (Home.refetch_by_city net st h))
  = requests h ++ [city_request (city st) (Some (units st))].
Proof.
  unfold Home.refetch_by_city, try_finally, try_catch.
  rewrite (bind_run _ _ _ _ _ (call_run _ h)).
  pose proof (getForecastByCity_requests (city st) (Some (units st))
                (h ++ [StateSet (setLoading true)])) as R.
  unfold bind at 1.
  destruct (WeatherService.getForecastByCity net _ _ _) as [[data|e] h'];
    cbn [snd] in *.
  - unfold call. cbn [snd]. rewrite !requests_app, R, requests_app.
    cbn. now rewrite !app_nil_r.
  - unfold Home.report, bind, console_error, call. cbn [snd].
    rewrite !requests_app, R, requests_app. cbn. now rewrite !app_nil_r.
Qed.

(** X3. With a forecast on the page whose [city_info.lat] and [city_info.lon]
    are both truthy, the refresh goes through [getForecastByCoords] with
    those coordinates and issues no request by name. *)
Lemma refetchWeather_by_coordinates st forecast h :
  weatherData st = Some forecast ->
  JS.to_boolean (JS.read (JS.field forecast "city_info") "lat") = true ->
  JS.to_boolean (JS.read (JS.field forecast "city_info") "lon") = true ->
  requests (snd (refetchWeather st h))
  = requests h ++ [geocode_request (JS.read (JS.field forecast "city_info") "lat")
                                   (JS.read (JS.field forecast "city_info") "lon");
                   coords_request (JS.read (JS.field forecast "city_info") "lat")
                                  (JS.read (JS.field forecast "city_info") "lon")
                                  (Some (units st))].
Proof.
  intros Hw Hlat Hlon.
  destruct (truthy_member _ _ Hlat) as [Hci Htrue].
  set (city_info := JS.field forecast "city_info") in *.
  unfold Home.refetchWeather.
  rewrite (bind_run _ _ _ _ _ (call_run _ h)).
  unfold Home.city_info_of. rewrite Hw. fold city_info. rewrite Htrue.
  rewrite !(get_readable city_info _ Hci).
  rewrite (bind_run _ _ _ _ _ (and_also_values _ _ _)), Hlat, Hlon.
  rewrite (bind_run _ _ _ _ _ (call_run _ _)).
  unfold try_finally, try_catch. rewrite !bind_lift_normal.
  unfold bind at 1.
  pose proof (getForecastByCoords_requests (JS.read city_info "lat")
                (JS.read city_info "lon") (Some (units st))
                ((h ++ [StateSet (setError None)]) ++ [StateSet (setGeoLoading true)])) as R.
  destruct (WeatherService.getForecastByCoords _ _ _ _ _ _) as [[data|e] h'];
    cbn [snd] in *.
  - unfold call. cbn [snd]. rewrite !requests_app, R, !requests_app.
    cbn. now rewrite !app_nil_r.
  - unfold Home.report, bind, console_error, call. cbn [snd].
    rewrite !requests_app, R, !requests_app. cbn. now rewrite !app_nil_r.
Qed.

(** With a forecast on the page one of whose coordinates is falsy ([0], [NaN]
    or missing) and a city name in the search box, the refresh goes by
    name. *)
Lemma refetchWeather_by_name st forecast h :
  weatherData st = Some forecast ->
  JS.to_boolean (JS.field forecast "city_info") = true ->
  JS.to_boolean (JS.read (JS.field forecast "city_info") "lat") = false \/
  JS.to_boolean (JS.read (JS.field forecast "city_info") "lon") = false ->
  city st <> "" ->
  requests (snd (refetchWeather st h))
  = requests h ++ [city_request (city st) (Some (units st))].
Proof.
  intros Hw Htrue Hfalsy Hcity.
  pose proof (truthy_readable _ Htrue) as Hci.
  set (city_info := JS.field forecast "city_info") in *.
  unfold Home.refetchWeather.
  rewrite (bind_run _ _ _ _ _ (call_run _ h)).
  unfold Home.city_info_of. rewrite Hw. fold city_info. rewrite Htrue.
  rewrite !(get_readable city_info _ Hci).
  rewrite (bind_run _ _ _ _ _ (and_also_values _ _ _)).
  assert (Hname : negb (String.eqb (city st) "") = true).
  { apply negb_true_iff. now apply String.eqb_neq. }
  destruct (JS.to_boolean (JS.read city_info "lat")) eqn:Hlat.
  - destruct Hfalsy as [|Hlon]; [discriminate|].
    rewrite Hlon, Hname, refetch_by_city_requests, requests_app.
    cbn. now rewrite app_nil_r.
  - rewrite Hlat, Hname, refetch_by_city_requests, requests_app.
    cbn. now rewrite app_nil_r.
Qed.

End Refetch.

(** C6, at a page the claim covers and the code treats otherwise.  The page
    shows a forecast whose [city_info] has the coordinates [lat = 0],
    [lon = 37.07] and the name "Nanyuki", and the search box holds "Nanyuki".
    The test [city_info.lat && city_info.lon] reads the latitude [0] as
    "no coordinates", so the refresh issues the request by name and no
    request by coordinates. *)
Theorem refetchWeather_on_the_equator_goes_by_name
    (parseFloat : value -> number) (net : Network) (h : list event) :
  JS.read (Home.city_info_of (weatherData Sample.equator_page)) "lat"
    = VNum (S754_zero false) /\
  JS.read (Home.city_info_of (weatherData Sample.equator_page)) "lon"
    = VNum (Sample.num "37.07") /\
  requests (snd (Home.refetchWeather parseFloat net Sample.equator_page h))
    = requests h ++ [city_request "Nanyuki" (Some metric)].
Proof.
  split; [reflexivity|]. split; [reflexivity|].
  eapply (refetchWeather_by_name parseFloat net Sample.equator_page).
  - reflexivity.
  - reflexivity.
  - left. reflexivity.
  - discriminate.
Qed.

(* ===================================================================== *)
(** ** [getWindDirection] *)
(* ===================================================================== *)

Lemma rem_wraps d : 0 <= d -> Z.rem (d + 360) 360 = Z.rem d 360.
Proof.
  intros Hd. rewrite !Z.rem_mod_nonneg by lia.
  replace (d + 360) with (d + 1 * 360) by lia. apply Z_mod_plus_full.
Qed.







(** On whole bearings, a whole turn does not change the compass point. *)
Lemma getWindDirection_wraps d :
  0 <= d ->
  Home.getWindDirection (Some (d + 360)) = Home.getWindDirection (Some d).
Proof.
  intros Hd. unfold Home.getWindDirection. now rewrite rem_wraps.
Qed.


(** X4. For a bearing that is not negative the result is one of the eight
    labels. *)
Lemma getWindDirection_labelled d :
  0 <= d -> exists label, Home.getWindDirection (Some d) = Some label /\ label ∈ Home.directions.
Proof.
  intros Hd. unfold Home.getWindDirection, Home.round_div, Home.element.
  rewrite (Z.rem_mod_nonneg d 360) by lia.
  pose proof (Z.mod_pos_bound d 360 ltac:(lia)) as Hr.
  set (r := d mod 360) in *.
  assert (Hq : 0 <= (2 * r + 45) / (2 * 45) <= 8).
  { split; [apply Z.div_pos; lia|].
    enough ((2 * r + 45) / (2 * 45) < 9) by lia.
    apply Z.div_lt_upper_bound; lia. }
  set (q := (2 * r + 45) / (2 * 45)) in *.
  rewrite (Z.rem_mod_nonneg q 8) by lia.
  pose proof (Z.mod_pos_bound q 8 ltac:(lia)) as Hi.
  destruct (Z.ltb_spec (q mod 8) 0) as [|_]; [lia|].
  destruct (Home.directions !! Z.to_nat (q mod 8)) as [label|] eqn:E.
  - exists label. split; [reflexivity|]. eapply list_elem_of_lookup_2, E.
  - apply lookup_ge_None in E. cbn in E. lia.
Qed.

Example getWindDirection_0_360 :
  Home.getWindDirection (Some 0) = Some "N" /\
  Home.getWindDirection (Some 360) = Some "N".
Proof. split; reflexivity. Qed.

Example getWindDirection_361_1 :
  Home.getWindDirection (Some 361) = Home.getWindDirection (Some 1).
Proof. exact (getWindDirection_wraps 1 ltac:(lia)). Qed.



(* ===================================================================== *)
(** ** The statements above at concrete documents *)
(* ===================================================================== *)

Lemma display_name_thika :
  exists info,
    fst (WeatherService.getLocationFromCoords Sample.parseFloat Sample.online
           Sample.here_lat Sample.here_lon []) = Normal (Some info) /\
    name info = VStr "Thika".
Proof.
  exact (display_name_priority Sample.parseFloat Sample.online
           Sample.here_lat Sample.here_lon [] Sample.thika eq_refl).
Defined.

(** Each tier of the fallback, on the specification's side and on the
    code's. *)
Example display_name_tiers :
  let address c t v co := Nominatim.address_value
    {| Nominatim.city := c; Nominatim.town := t; Nominatim.village := v;
       Nominatim.county := co; Nominatim.state := None;
       Nominatim.country := "Kenya"; Nominatim.country_code := "ke" |} in
  name_of (address (Some "Nairobi") (Some "T") (Some "V") (Some "C")) = VStr "Nairobi" /\
  name_of (address None (Some "Thika") (Some "V") (Some "C")) = VStr "Thika" /\
  name_of (address None None (Some "Gatundu") (Some "C")) = VStr "Gatundu" /\
  name_of (address None None None (Some "Kiambu")) = VStr "Kiambu" /\
  name_of (address None None None None) = VStr "Unknown Location" /\
  name_of (address (Some "") (Some "") None (Some "Kiambu")) = VStr "Kiambu".
Proof. repeat split; reflexivity. Qed.

(** C4 as stated fails here: a document that is not of the interface's shape
    (it has an address and nothing else) gives a descriptor, not [null]. *)
Lemma ill_shaped_document_yields_descriptor :
  (forall r, Nominatim.response_value r <> Sample.bare_address) /\
  fst (WeatherService.getLocationFromCoords Sample.parseFloat
         Sample.geocoder_bare Sample.here_lat Sample.here_lon [])
  = Normal (Some {| name := VStr "Unknown Location"; country := VUndefined;
                    state := VUndefined; lat := S754_nan; lon := S754_nan |}).
Proof.
  split; [|reflexivity].
  intros r H. apply (f_equal (fun v => JS.read v "lat")) in H. discriminate H.
Qed.

(** The documents that are left as text, or have no address, do give
    [null]. *)
Example unparsed_text_gives_null :
  fst (WeatherService.getLocationFromCoords Sample.parseFloat
         {| nominatim := fun _ => Resolved (VStr "<html>Bad Gateway</html>");
            backend := fun _ => Resolved Sample.thika_forecast |}
         Sample.here_lat Sample.here_lon [])
  = Normal None.
Proof. reflexivity. Qed.

(** So does a document whose address can be read and whose [lat] is an
    object with a [toString] member of its own: [parseFloat] throws on it. *)
Example textless_latitude_gives_null :
  has_address Sample.textless_latitude = true /\
  coordinates_convert Sample.textless_latitude = false /\
  WeatherService.getLocationFromCoords Sample.parseFloat Sample.geocoder_textless
    Sample.here_lat Sample.here_lon []
  = (Normal None,
     [geocode_request Sample.here_lat Sample.here_lon; Settled nominatimApi true;
      ConsoleError geocode_label
        (TypeError "Cannot convert object to primitive value")]).
Proof. repeat split. Qed.

(** Asked about -1.04, 37.07 the geocoder answers for -1.0333, 37.0693, and
    those are the descriptor's coordinates. *)
Lemma descriptor_coordinates_thika :
  exists info,
    fst (WeatherService.getLocationFromCoords Sample.parseFloat Sample.online
           Sample.here_lat Sample.here_lon []) = Normal (Some info) /\
    lat info = Sample.num "-1.0333" /\ lon info = Sample.num "37.0693".
Proof.
  destruct (descriptor_coordinates_from_response Sample.parseFloat Sample.online
              Sample.here_lat Sample.here_lon []
              (Nominatim.response_value Sample.thika) eq_refl) as [Hcoords Hsome].
  destruct (Hsome eq_refl eq_refl) as [info Hinfo].
  exists info. split; [exact Hinfo|]. exact (Hcoords info Hinfo).
Defined.

(** Near Thika with both services answering: the name, country and region
    are the geocoder's, the rest is the backend's.  With the geocoder down
    the forecast is the backend's document. *)
Lemma merge_thika :
  (exists result city_info,
      fst (WeatherService.getForecastByCoords Sample.parseFloat Sample.online
             Sample.here_lat Sample.here_lon None []) = Normal result /\
      result !! "city_info" = Some (VObj city_info) /\
      city_info !! "name" = Some (VStr "Thika") /\
      city_info !! "country" = Some (VStr "Kenya") /\
      city_info !! "state" = Some VUndefined /\
      city_info !! "lat" = Some (VNum (Sample.num "-1.05")) /\
      city_info !! "lon" = Some (VNum (Sample.num "37.08")) /\
      result !! "city" = Sample.thika_forecast !! "city" /\
      result !! "daily_forecasts" = Some (VArr [])) /\
  fst (WeatherService.getForecastByCoords Sample.parseFloat Sample.geocoder_down
         Sample.here_lat Sample.here_lon None []) = Normal Sample.thika_forecast.
Proof.
  split.
  - destruct (getForecastByCoords_merge Sample.parseFloat Sample.online
                Sample.here_lat Sample.here_lon None []
                (Some (descriptor Sample.parseFloat
                         (Nominatim.response_value Sample.thika)
                         (Nominatim.address_value (Nominatim.address Sample.thika))))
                [geocode_request Sample.here_lat Sample.here_lon;
                 Settled nominatimApi true]
                Sample.thika_forecast eq_refl eq_refl)
      as (result & Hresult & Hframe & city_info & Hci & Hname & Hcountry & Hstate & Hrest).
    exists result, city_info.
    split; [exact Hresult|]. split; [exact Hci|].
    split; [exact Hname|]. split; [exact Hcountry|]. split; [exact Hstate|].
    split; [rewrite Hrest by discriminate; reflexivity|].
    split; [rewrite Hrest by discriminate; reflexivity|].
    split; [apply Hframe; discriminate|].
    rewrite Hframe by discriminate. reflexivity.
  - destruct (getForecastByCoords_merge Sample.parseFloat Sample.geocoder_down
                Sample.here_lat Sample.here_lon None [] None
                [geocode_request Sample.here_lat Sample.here_lon;
                 Settled nominatimApi false;
                 ConsoleError geocode_label Sample.timeout]
                Sample.thika_forecast eq_refl eq_refl)
      as (result & Hresult & Hsame).
    rewrite Hresult. now rewrite Hsame.
Defined.

(** C2 as stated fails here: asked for latitude -1.04, the forecast comes
    back with the backend's -1.05. *)
Lemma forecast_latitude_is_not_the_input :
  exists result city_info,
    fst (WeatherService.getForecastByCoords Sample.parseFloat Sample.online
           Sample.here_lat Sample.here_lon None []) = Normal result /\
    result !! "city_info" = Some (VObj city_info) /\
    Sample.here_lat = VNum (Sample.num "-1.04") /\
    city_info !! "lat" = Some (VNum (Sample.num "-1.05")) /\
    city_info !! "lat" <> Some Sample.here_lat.
Proof.
  eexists _, _. split; [reflexivity|]. split; [reflexivity|].
  split; [reflexivity|]. split; [reflexivity|]. discriminate.
Qed.

Lemma backend_coordinates_thika :
  exists result city_info,
    fst (WeatherService.getForecastByCoords Sample.parseFloat Sample.online
           Sample.here_lat Sample.here_lon None []) = Normal result /\
    result !! "city_info" = Some (VObj city_info) /\
    city_info !! "lat" = Some (VNum (Sample.num "-1.05")) /\
    city_info !! "lon" = Some (VNum (Sample.num "37.08")).
Proof.
  exact (getForecastByCoords_keeps_backend_coordinates Sample.parseFloat
           Sample.online Sample.here_lat Sample.here_lon None []
           (Some (descriptor Sample.parseFloat
                    (Nominatim.response_value Sample.thika)
                    (Nominatim.address_value (Nominatim.address Sample.thika))))
           [geocode_request Sample.here_lat Sample.here_lon;
            Settled nominatimApi true]
           Sample.thika_forecast
           {[ "name" := VStr "Thika Town"; "country" := VStr "KE";
              "state" := VStr "Central";
              "lat" := VNum (Sample.num "-1.05");
              "lon" := VNum (Sample.num "37.08") ]}
           eq_refl eq_refl eq_refl).
Defined.

(** The backend says the region is "Central"; the geocoder's address has no
    state; the forecast returned has none. *)
Lemma region_erased_thika :
  JS.read (JS.field Sample.thika_forecast "city_info") "state" = VStr "Central" /\
  exists result city_info,
    fst (WeatherService.getForecastByCoords Sample.parseFloat Sample.online
           Sample.here_lat Sample.here_lon None []) = Normal result /\
    result !! "city_info" = Some (VObj city_info) /\
    city_info !! "state" = Some VUndefined.
Proof.
  split; [reflexivity|].
  exact (geocoder_without_state_erases_region Sample.parseFloat Sample.online
           Sample.here_lat Sample.here_lon None []
           (Nominatim.response_value Sample.thika)
           (Nominatim.address_value (Nominatim.address Sample.thika))
           Sample.thika_forecast eq_refl eq_refl eq_refl eq_refl eq_refl eq_refl).
Defined.

(** Refreshing the Thika page asks the geocoder and then the backend about
    the coordinates on the page, in the page's units. *)
Lemma refetch_thika_by_coordinates :
  requests (snd (Home.refetchWeather Sample.parseFloat Sample.online
                   Sample.thika_page []))
  = [geocode_request (VNum (Sample.num "-1.05")) (VNum (Sample.num "37.08"));
     coords_request (VNum (Sample.num "-1.05")) (VNum (Sample.num "37.08"))
       (Some imperial)].
Proof.
  exact (refetchWeather_by_coordinates Sample.parseFloat Sample.online
           Sample.thika_page Sample.thika_forecast [] eq_refl eq_refl eq_refl).
Defined.

Lemma getWindDirection_east :
  exists label,
    Home.getWindDirection (Some 90) = Some label /\ label ∈ Home.directions.
Proof. exact (getWindDirection_labelled 90 ltac:(lia)). Defined.

(* ===================================================================== *)
(** ** More on the service layer *)
(* ===================================================================== *)

Section ServiceFacts.

Variable parseFloat : value -> number.
Variable net : Network.

Abbreviation getLocationFromCoords :=
  (WeatherService.getLocationFromCoords parseFloat net).
Abbreviation getForecastByCoords :=
  (WeatherService.getForecastByCoords parseFloat net).

(** X5. [getLocationFromCoords] issues one request.  It writes to the console
    exactly when it returns [null], once, with the exception it absorbed:
    the one the request was rejected with, or the one that reading the
    document threw.  A descriptor only comes out of a request that was
    fulfilled, and then nothing is written. *)
Theorem getLocationFromCoords_logs_exactly_on_null latitude longitude h :
  exists result settled logs,
    getLocationFromCoords latitude longitude h
    = (Normal result,
       h ++ [geocode_request latitude longitude; Settled nominatimApi settled]
         ++ logs) /\
    match result with
    | Some _ => settled = true /\ logs = []
    | None =>
        exists e,
          logs = [ConsoleError geocode_label e] /\
          match nominatim net (h ++ [geocode_request latitude longitude]) with
          | Rejected reason => settled = false /\ e = reason
          | Resolved data => settled = true /\ located parseFloat data = Throw e
          end
    end.
Proof.
  rewrite getLocationFromCoords_run.
  destruct (nominatim net _) as [data|e];
    [destruct (located parseFloat data) as [info|e] eqn:E|].
  - exists (Some info), true, []. split; [reflexivity|]. split; reflexivity.
  - exists None, true, [ConsoleError geocode_label e]. split; [reflexivity|].
    exists e. repeat split.
  - exists None, false, [ConsoleError geocode_label e]. split; [reflexivity|].
    exists e. repeat split.
Qed.

(** X6. When the geocoding succeeds (the geocoder answers with a document
    whose address can be read and whose [lat] and [lon] have a text) and
    none of the address's city, town, village and county is truthy, the
    forecast comes back named "Unknown Location", whatever name the
    backend's document had. *)
Theorem nameless_address_overrides_backend_name
    latitude longitude units h data address weatherData :
  nominatim net (h ++ [geocode_request latitude longitude]) = Resolved data ->
  JS.get data "address" = Normal address ->
  JS.nullish address = false ->
  coordinates_convert data = true ->
  JS.to_boolean (JS.read address "city") = false ->
  JS.to_boolean (JS.read address "town") = false ->
  JS.to_boolean (JS.read address "village") = false ->
  JS.to_boolean (JS.read address "county") = false ->
  backend net (h ++ [geocode_request latitude longitude; Settled nominatimApi true;
                     coords_request latitude longitude units])
    = Resolved weatherData ->
  exists result city_info,
    fst (getForecastByCoords latitude longitude units h) = Normal result /\
    result !! "city_info" = Some (VObj city_info) /\
    city_info !! "name" = Some (VStr "Unknown Location").
Proof.
  intros Hgeo Haddr Hreadable Hconvert Hc Ht Hv Hco Hnet.
  assert (Hloc : getLocationFromCoords latitude longitude h =
                 (Normal (Some (descriptor parseFloat data address)),
                  h ++ [geocode_request latitude longitude; Settled nominatimApi true])).
  { rewrite getLocationFromCoords_run, Hgeo.
    now rewrite (located_readable parseFloat data address Haddr Hreadable Hconvert). }
  rewrite (getForecastByCoords_run _ _ _ _ _ _ _ _ Hloc).
  rewrite <- app_assoc. cbn [app]. rewrite Hnet. cbn [merged fst].
  do 2 eexists. split; [reflexivity|]. split; [apply lookup_insert_eq|].
  rewrite merge_city_info_lookup. cbn [descriptor name].
  repeat (case_decide; [discriminate|]). case_decide; [|congruence].
  unfold name_of, or_value. now rewrite Hc, Ht, Hv, Hco.
Qed.

End ServiceFacts.

(* ===================================================================== *)
(** ** The search form: [handleSearch] *)
(* ===================================================================== *)

Lemma trim_start_blank s : blank s = true -> JS.trim_start s = "".
Proof.
  induction s as [|c s IH]; [reflexivity|]. unfold blank. cbn.
  intros [Hc Hs]%andb_true_iff. rewrite Hc. now apply IH.
Qed.

Lemma trim_start_not_blank s :
  blank s = false ->
  exists c rest, JS.trim_start s = String c rest /\ JS.is_white_space c = false.
Proof.
  induction s as [|c s IH]; [discriminate|]. unfold blank. cbn.
  destruct (JS.is_white_space c) eqn:Hc.
  - cbn. intros Hs. now apply IH.
  - intros _. now exists c, s.
Qed.

Lemma trim_end_keeps_head c rest :
  JS.is_white_space c = false -> JS.trim_end (String c rest) <> "".
Proof.
  intros Hc. cbn. destruct (JS.trim_end rest); [now rewrite Hc|discriminate].
Qed.

(** [trim] leaves nothing exactly of the texts that are all white space. *)
Lemma trim_empty s : JS.trim s = "" <-> blank s = true.
Proof.
  unfold JS.trim. split.
  - intros Ht. destruct (blank s) eqn:Hb; [reflexivity|].
    destruct (trim_start_not_blank s Hb) as (c & rest & Hs & Hc).
    rewrite Hs in Ht. now apply trim_end_keeps_head in Ht.
  - intros Hb. now rewrite (trim_start_blank s Hb).
Qed.

Lemma rendered_app st h1 h2 : rendered st (h1 ++ h2) = rendered (rendered st h1) h2.
Proof. apply fold_left_app. Qed.

Section Search.

Variable net : Network.
Variable response_error : exception -> option (option string).

Abbreviation handleSearch := (Home.handleSearch net response_error).

Lemma handleSearch_run st h :
  blank (city st) = false ->
  handleSearch st h =
  match backend net (h ++ search_prefix st) with
  | Resolved data =>
      (Normal tt,
       h ++ search_prefix st
         ++ [Settled weatherApi true; StateSet (setWeatherData (Some data));
             StateSet (setLoading false)])
  | Rejected e =>
      (Normal tt,
       h ++ search_prefix st
         ++ [Settled weatherApi false; ConsoleError city_label e;
             ConsoleError "Error fetching weather data:" e;
             StateSet (setError
                         (Some match response_error e with
                               | Some text => Home.text_or text "Failed to fetch weather data"
                               | None => message_of e
                               end));
             StateSet (setLoading false)])
  end.
Proof.
  intros Hb. unfold Home.handleSearch.
  assert (Ht : JS.to_boolean (VStr (JS.trim (city st))) = true).
  { cbn. destruct (String.eqb_spec (JS.trim (city st)) "") as [E|]; [|reflexivity].
    apply trim_empty in E. congruence. }
  rewrite Ht. cbn [negb].
  unfold bind at 1, call at 1. unfold bind at 1, call at 1.
  unfold try_finally, try_catch, bind at 1.
  rewrite getForecastByCity_run.
  replace ((h ++ [StateSet (setLoading true)]) ++ [StateSet (setError None)]
           ++ [city_request (city st) (Some (units st))])
    with (h ++ search_prefix st) by (unfold search_prefix; now rewrite <- app_assoc).
  replace (((h ++ [StateSet (setLoading true)]) ++ [StateSet (setError None)])
           ++ [city_request (city st) (Some (units st))])
    with (h ++ search_prefix st) by (unfold search_prefix; now rewrite <- !app_assoc).
  destruct (backend net (h ++ search_prefix st)) as [data|e].
  - unfold call. cbn [snd]. unfold search_prefix. now rewrite <- !app_assoc.
  - unfold bind, console_error.
    destruct (response_error e) as [text|]; unfold call; cbn [snd];
      unfold search_prefix; rewrite <- !app_assoc;
      try (destruct e; reflexivity); reflexivity.
Qed.

(** X7. A search with nothing in the box but white space does nothing at
    all: no request, no setter call, no console output. *)
Theorem handleSearch_blank_does_nothing st h :
  blank (city st) = true -> handleSearch st h = (Normal tt, h).
Proof.
  intros Hb. unfold Home.handleSearch.
  apply trim_empty in Hb. now rewrite Hb.
Qed.

(** X8. A search with anything else in the box issues one request, by city
    name, and the name it sends is the text of the box as typed, surrounding
    white space included. *)
Theorem handleSearch_sends_city_as_typed st h :
  blank (city st) = false ->
  requests (snd (handleSearch st h))
  = requests h ++ [Request weatherApi "/api/weather/forecast/city"
                     [("city", VStr (city st)); ("units", units_value (units st))]].
Proof.
  intros Hb. rewrite (handleSearch_run st h Hb).
  destruct (backend net _); cbn [snd]; rewrite requests_app; reflexivity.
Qed.


End Search.

(* ===================================================================== *)
(** ** The position button: [getLocationWeather] *)
(* ===================================================================== *)

Lemma rendered_silent st h :
  Forall (fun e => is_setter e = false) h -> rendered st h = st.
Proof.
  intros H. revert st. induction H as [|e h He _ IH]; intros st; [reflexivity|].
  unfold rendered. cbn. destruct e; try discriminate; apply IH.
Qed.

Lemma console_is_silent logs :
  Forall (fun e => is_console e = true) logs ->
  Forall (fun e => is_setter e = false) logs.
Proof. intros H. eapply Forall_impl; [exact H|]. now intros []. Qed.

Section Locate.

Variable parseFloat : value -> number.
Variable net : Network.

Abbreviation getLocationWeather := (Home.getLocationWeather parseFloat net).

(** The geocoding step adds one request, its settlement and console output
    at most. *)
Lemma getLocationFromCoords_shape latitude longitude h :
  exists locationInfo settled logs,
    WeatherService.getLocationFromCoords parseFloat net latitude longitude h
    = (Normal locationInfo,
       h ++ [geocode_request latitude longitude; Settled nominatimApi settled]
         ++ logs) /\
    Forall (fun e => is_console e = true) logs.
Proof.
  rewrite getLocationFromCoords_run.
  destruct (nominatim net _) as [data|e]; [destruct (located parseFloat data) as [info|e]|].
  - exists (Some info), true, []. split; [reflexivity|constructor].
  - exists None, true, [ConsoleError geocode_label e].
    split; [reflexivity|repeat constructor].
  - exists None, false, [ConsoleError geocode_label e].
    split; [reflexivity|repeat constructor].
Qed.

Lemma show_name_run data h :
  Home.show_name data h = (Normal tt, h ++ name_events data).
Proof.
  unfold Home.show_name, name_events. cbv zeta.
  destruct (JS.to_boolean _); [|unfold ret; now rewrite app_nil_r].
  now destruct (JS.opt_read _ _).
Qed.

(** For a name that is a text or falsy, the call recorded is the one that
    puts the text in the box. *)
Lemma name_events_text data :
  name_is_text data = true ->
  name_events data = match shown_name data with
                     | Some s => [StateSet (setCity s)]
                     | None => []
                     end.
Proof.
  unfold name_is_text, name_events, shown_name. cbv zeta.
  destruct (JS.opt_read _ _) as [| | b | n | text | l | o];
    try (intros H; apply negb_true_iff in H; now rewrite H).
  intros _. cbn. now destruct (String.eqb text "").
Qed.

Lemma name_events_silent data : requests (name_events data) = [].
Proof. unfold name_events. cbv zeta. now destruct (JS.to_boolean _). Qed.

Lemma getLocationWeather_run latitude longitude st h locationInfo h1 :
  WeatherService.getLocationFromCoords parseFloat net (VNum latitude) (VNum longitude)
    (h ++ locate_prefix) = (Normal locationInfo, h1) ->
  getLocationWeather (Home.Located latitude longitude) st h =
  match backend net (h1 ++ [coords_request (VNum latitude) (VNum longitude)
                              (Some (units st))]) with
  | Resolved weatherData =>
      (Normal tt,
       h1 ++ [coords_request (VNum latitude) (VNum longitude) (Some (units st));
              Settled weatherApi true;
              StateSet (setWeatherData (Some (merged locationInfo weatherData)))]
          ++ name_events (merged locationInfo weatherData)
          ++ [StateSet (setGeoLoading false)])
  | Rejected e =>
      (Normal tt,
       h1 ++ [coords_request (VNum latitude) (VNum longitude) (Some (units st));
              Settled weatherApi false; ConsoleError coords_label e;
              ConsoleError "Error fetching weather by location:" e;
              StateSet (setError (Some (location_message e)));
              StateSet (setGeoLoading false)])
  end.
Proof.
  intros Hloc. unfold Home.getLocationWeather.
  unfold bind at 1, call at 1. unfold bind at 1, call at 1.
  unfold try_finally, try_catch, bind at 1.
  replace ((h ++ [StateSet (setGeoLoading true)]) ++ [StateSet (setError None)])
    with (h ++ locate_prefix) by (unfold locate_prefix; now rewrite <- app_assoc).
  rewrite (getForecastByCoords_run _ _ _ _ _ _ _ _ Hloc).
  destruct (backend net _) as [weatherData|e].
  - unfold bind at 1, call at 1. rewrite show_name_run. unfold call. cbn [snd].
    now rewrite <- !app_assoc.
  - unfold bind, console_error, location_message.
    destruct (bool_decide _); unfold call; cbn [snd]; rewrite <- !app_assoc;
      try (destruct e; reflexivity); reflexivity.
Qed.

(** X10. [getLocationWeather] asks the services only when the browser gives a
    position, and then about exactly that position, in the page's units:
    first the geocoder, then the backend.  Without geolocation, or when the
    position cannot be had, it issues no request. *)
Theorem getLocationWeather_requests geo st h :
  requests (snd (getLocationWeather geo st h))
  = requests h ++
    match geo with
    | Home.Located latitude longitude =>
        [geocode_request (VNum latitude) (VNum longitude);
         coords_request (VNum latitude) (VNum longitude) (Some (units st))]
    | Home.Unsupported | Home.Failed _ => []
    end.
Proof.
  destruct geo as [|latitude longitude|message].
  - cbn. rewrite requests_app. reflexivity.
  - destruct (getLocationFromCoords_shape (VNum latitude) (VNum longitude)
                (h ++ locate_prefix)) as (loc & settled & logs & Hloc & Hlogs).
    rewrite (getLocationWeather_run _ _ _ _ _ _ Hloc).
    assert (Hsilent : requests logs = []).
    { clear Hloc. induction Hlogs as [|e logs He _ IH]; [reflexivity|].
      destruct e; try discriminate. exact IH. }
    destruct (backend net _) as [weatherData|e]; cbn [snd];
      rewrite !requests_app, Hsilent, ?name_events_silent;
      rewrite <- !app_assoc; f_equal.
  - cbn. rewrite !requests_app. cbn. now rewrite !app_nil_r.
Qed.

(** X11. What a fetch by position leaves on the page.  It never throws and
    always ends with the position flag down.  When the backend answers with
    a forecast whose name, after the merge, is a text or falsy (as the
    declared type has it), the forecast returned by [getForecastByCoords] is
    shown, the error is cleared and the search box takes the forecast's name
    if that is a non-empty text; a failure of the geocoder changes none of
    this.  When the backend request fails, the forecast and the search box
    stay as they were and the error is the fixed time-out text for an
    exception with code ECONNABORTED and the exception's message
    otherwise. *)
Theorem getLocationWeather_outcome latitude longitude st :
  exists locationInfo h1,
    WeatherService.getLocationFromCoords parseFloat net (VNum latitude) (VNum longitude)
      locate_prefix = (Normal locationInfo, h1) /\
    fst (getLocationWeather (Home.Located latitude longitude) st []) = Normal tt /\
    match backend net (h1 ++ [coords_request (VNum latitude) (VNum longitude)
                                (Some (units st))]) with
    | Resolved weatherData =>
        name_is_text (merged locationInfo weatherData) = true ->
        rendered st (snd (getLocationWeather (Home.Located latitude longitude) st [])) =
        {| city := default (city st) (shown_name (merged locationInfo weatherData));
           weatherData := Some (merged locationInfo weatherData);
           loading := loading st; error := None; units := units st;
           geoLoading := false |}
    | Rejected e =>
        rendered st (snd (getLocationWeather (Home.Located latitude longitude) st [])) =
        {| city := city st; weatherData := weatherData st; loading := loading st;
           error := Some (location_message e); units := units st;
           geoLoading := false |}
    end.
Proof.
  destruct (getLocationFromCoords_shape (VNum latitude) (VNum longitude) locate_prefix)
    as (loc & settled & logs & Hloc & Hlogs).
  remember (locate_prefix
            ++ [geocode_request (VNum latitude) (VNum longitude);
                Settled nominatimApi settled] ++ logs) as h1 eqn:Eh1.
  assert (Hh1 : rendered st h1 = rendered st locate_prefix).
  { subst h1. rewrite rendered_app. apply rendered_silent. repeat constructor.
    now apply console_is_silent. }
  exists loc, h1. split; [exact Hloc|].
  rewrite (getLocationWeather_run latitude longitude st [] _ _ Hloc).
  destruct (backend net _) as [weatherData|e]; (split; [reflexivity|]); cbn [snd].
  - intros Hname. rewrite (name_events_text _ Hname).
    rewrite rendered_app, Hh1. destruct (shown_name _); reflexivity.
  - rewrite rendered_app, Hh1. reflexivity.
Qed.

Lemma first_non_empty_not_empty fields placeholder :
  placeholder <> "" -> Nominatim.first_non_empty fields placeholder <> "".
Proof.
  intros Hp. induction fields as [|[s|] rest IH]; cbn; [assumption| |assumption].
  destruct (String.eqb_spec s ""); assumption.
Qed.

(** X12. When both services answer and the geocoder's document is of the
    declared shape, the search box is filled with the display name resolved
    from the geocoder's address (first non-empty of city, town, village,
    county, else "Unknown Location"), whatever name the backend sent and
    whatever was in the box. *)
Theorem getLocationWeather_fills_box_with_geocoder_name
    latitude longitude st (r : Nominatim.Response) weatherData :
  nominatim net (locate_prefix ++ [geocode_request (VNum latitude) (VNum longitude)])
    = Resolved (Nominatim.response_value r) ->
  backend net (locate_prefix
               ++ [geocode_request (VNum latitude) (VNum longitude);
                   Settled nominatimApi true;
                   coords_request (VNum latitude) (VNum longitude) (Some (units st))])
    = Resolved weatherData ->
  city (rendered st (snd (getLocationWeather (Home.Located latitude longitude) st [])))
  = Nominatim.resolved_name (Nominatim.address r).
Proof.
  intros Hgeo Hnet.
  set (info := descriptor parseFloat (Nominatim.response_value r)
                 (Nominatim.address_value (Nominatim.address r))).
  assert (Hloc : WeatherService.getLocationFromCoords parseFloat net
                   (VNum latitude) (VNum longitude) locate_prefix
                 = (Normal (Some info),
                    locate_prefix ++ [geocode_request (VNum latitude) (VNum longitude);
                                      Settled nominatimApi true])).
  { rewrite getLocationFromCoords_run, Hgeo. unfold located.
    rewrite well_shaped_has_address.
    now rewrite (get_readable (Nominatim.address_value _) "city" eq_refl). }
  rewrite (getLocationWeather_run latitude longitude st [] _ _ Hloc).
  rewrite <- app_assoc. cbn [app] in Hnet |- *. rewrite Hnet. cbn [snd].
  assert (Hname : shown_name (merged (Some info) weatherData)
                  = Some (Nominatim.resolved_name (Nominatim.address r))).
  { unfold shown_name, merged, JS.field, JS.read. rewrite lookup_insert_eq.
    cbn [default]. unfold id, JS.opt_read. cbn [JS.nullish JS.read].
    rewrite merge_city_info_lookup. cbn [descriptor info name].
    repeat (case_decide; [discriminate|]). case_decide; [|congruence].
    cbn [default]. unfold id. rewrite name_of_address.
    destruct (String.eqb_spec (Nominatim.resolved_name (Nominatim.address r)) "") as [E|];
      [|reflexivity].
    now apply first_non_empty_not_empty in E. }
  assert (Htext : name_is_text (merged (Some info) weatherData) = true).
  { revert Hname. unfold shown_name, name_is_text.
    now destruct (JS.opt_read _ _). }
  rewrite (name_events_text _ Htext), Hname. reflexivity.
Qed.

End Locate.

(* ===================================================================== *)
(** ** The refresh, in every case, and the units button *)
(* ===================================================================== *)

Section Refresh.

Variable parseFloat : value -> number.
Variable net : Network.

Abbreviation refetchWeather := (Home.refetchWeather parseFloat net).

Lemma by_name_or_nothing st h :
  requests (snd ((if negb (String.eqb (city st) "")
                  then Home.refetch_by_city net st else ret tt) h))
  = requests h ++ (if negb (String.eqb (city st) "")
                   then [city_request (city st) (Some (units st))] else []).
Proof.
  destruct (negb _).
  - apply refetch_by_city_requests.
  - cbn. now rewrite app_nil_r.
Qed.

(** The requests of a refresh are those read off the cells. *)
Lemma refetchWeather_requests st h :
  requests (snd (refetchWeather st h)) = requests h ++ refetch_requests st.
Proof.
  unfold Home.refetchWeather, refetch_requests.
  rewrite (bind_run _ _ _ _ _ (call_run _ h)).
  set (city_info := Home.city_info_of (weatherData st)).
  assert (Hstart : requests (h ++ [StateSet (setError None)]) = requests h).
  { rewrite requests_app. cbn. apply app_nil_r. }
  destruct (JS.to_boolean city_info) eqn:Htrue;
    [|rewrite by_name_or_nothing, Hstart; reflexivity].
  pose proof (truthy_readable _ Htrue) as Hci.
  rewrite !(get_readable city_info _ Hci).
  rewrite (bind_run _ _ _ _ _ (and_also_values _ _ _)).
  destruct (JS.to_boolean (JS.read city_info "lat")) eqn:Hlat; cbn [andb];
    [|rewrite Hlat, by_name_or_nothing, Hstart; reflexivity].
  destruct (JS.to_boolean (JS.read city_info "lon")) eqn:Hlon;
    [|rewrite by_name_or_nothing, Hstart; reflexivity].
  rewrite (bind_run _ _ _ _ _ (call_run _ _)).
  unfold try_finally, try_catch. rewrite !bind_lift_normal.
  unfold bind at 1.
  pose proof (getForecastByCoords_requests parseFloat net (JS.read city_info "lat")
                (JS.read city_info "lon") (Some (units st))
                ((h ++ [StateSet (setError None)]) ++ [StateSet (setGeoLoading true)])) as R.
  destruct (WeatherService.getForecastByCoords _ _ _ _ _ _) as [[data|e] h'];
    cbn [snd] in *.
  - unfold call. cbn [snd]. rewrite !requests_app, R, !requests_app.
    cbn. now rewrite !app_nil_r.
  - unfold Home.report, bind, console_error, call. cbn [snd].
    rewrite !requests_app, R, !requests_app. cbn. now rewrite !app_nil_r.
Qed.

(** X13. The units button hands [setUnits] the other unit system and schedules
    a refresh that still asks in the unit system shown before the click:
    every request of that refresh that has a [units] parameter carries the
    old units. *)
Theorem toggleUnits_refreshes_in_old_units st h :
  fst (Home.toggleUnits parseFloat net st) <> units st /\
  exists issued,
    requests (snd (snd (Home.toggleUnits parseFloat net st) h)) = requests h ++ issued /\
    Forall (fun e => units_param e = None \/
                     units_param e = Some (units_value (units st))) issued.
Proof.
  split; [cbn; now destruct (units st)|].
  exists (refetch_requests st). split; [apply refetchWeather_requests|].
  unfold refetch_requests.
  destruct (negb _), (JS.to_boolean _); try destruct (_ && _);
    repeat constructor; now right.
Qed.

(** X14. A refresh with nothing to go on is silent: when the search box is
    empty and the page has no forecast, or a forecast without [city_info],
    or one whose latitude or longitude is falsy, no request is issued. *)
Theorem refetchWeather_without_locator_is_silent st h :
  city st = "" ->
  JS.to_boolean (Home.city_info_of (weatherData st)) = false \/
  JS.to_boolean (JS.read (Home.city_info_of (weatherData st)) "lat") = false \/
  JS.to_boolean (JS.read (Home.city_info_of (weatherData st)) "lon") = false ->
  requests (snd (refetchWeather st h)) = requests h.
Proof.
  intros Hcity Hno. rewrite refetchWeather_requests. unfold refetch_requests.
  rewrite Hcity. cbn [String.eqb negb].
  destruct (JS.to_boolean (Home.city_info_of _)); [|apply app_nil_r].
  destruct Hno as [|[->| ->]]; [discriminate| |]; rewrite ?andb_false_r;
    apply app_nil_r.
Qed.

(** X15. A refresh after a fetch by coordinates asks about the coordinates in
    the backend's answer: when [getForecastByCoords] has returned a forecast
    built from a backend document whose [city_info] has truthy [lat] and
    [lon], refreshing a page that shows that forecast issues the geocoding
    and forecast requests for the backend's [lat] and [lon], not for the
    coordinates of the first request nor for the geocoder's. *)
Theorem refetch_after_fetch_uses_backend_coordinates
    latitude longitude units0 h0 locationInfo h1 document backend_info result st h :
  WeatherService.getLocationFromCoords parseFloat net latitude longitude h0
    = (Normal locationInfo, h1) ->
  backend net (h1 ++ [coords_request latitude longitude units0]) = Resolved document ->
  document !! "city_info" = Some (VObj backend_info) ->
  JS.to_boolean (JS.field backend_info "lat") = true ->
  JS.to_boolean (JS.field backend_info "lon") = true ->
  fst (WeatherService.getForecastByCoords parseFloat net latitude longitude units0 h0)
    = Normal result ->
  weatherData st = Some result ->
  requests (snd (refetchWeather st h))
  = requests h ++ [geocode_request (JS.field backend_info "lat")
                                   (JS.field backend_info "lon");
                   coords_request (JS.field backend_info "lat")
                                  (JS.field backend_info "lon") (Some (units st))].
Proof.
  intros Hloc Hnet Hci Hlat Hlon Hres Hpage.
  rewrite (getForecastByCoords_run _ _ _ _ _ _ _ _ Hloc), Hnet in Hres.
  injection Hres as <-.
  assert (Hread : forall k, k = "lat"%string \/ k = "lon"%string ->
            JS.read (Home.city_info_of (Some (merged locationInfo document))) k
            = JS.field backend_info k).
  { intros k Hk. unfold Home.city_info_of, JS.field, JS.read.
    destruct locationInfo as [info|]; cbn [merged].
    - rewrite lookup_insert_eq. cbn [default]. unfold id.
      rewrite merge_city_info_lookup.
      repeat (case_decide; [destruct Hk; congruence|]).
      unfold JS.field, JS.read. now rewrite Hci.
    - now rewrite Hci. }
  assert (Htrue : JS.to_boolean (Home.city_info_of (Some (merged locationInfo document)))
                  = true).
  { unfold Home.city_info_of, JS.field, JS.read.
    destruct locationInfo; cbn [merged]; [now rewrite lookup_insert_eq|now rewrite Hci]. }
  rewrite refetchWeather_requests. unfold refetch_requests.
  rewrite Hpage, Htrue, !Hread by auto. now rewrite Hlat, Hlon.
Qed.

Lemma refetch_by_city_run st h :
  Home.refetch_by_city net st h =
  match backend net (h ++ [StateSet (setLoading true);
                           city_request (city st) (Some (units st))]) with
  | Resolved data =>
      (Normal tt,
       h ++ [StateSet (setLoading true); city_request (city st) (Some (units st));
             Settled weatherApi true; StateSet (setWeatherData (Some data));
             StateSet (setLoading false)])
  | Rejected e =>
      (Normal tt,
       h ++ [StateSet (setLoading true); city_request (city st) (Some (units st));
             Settled weatherApi false; ConsoleError city_label e;
             ConsoleError "Error refetching weather:" e;
             StateSet (setError (Some (message_of e)));
             StateSet (setLoading false)])
  end.
Proof.
  unfold Home.refetch_by_city.
  rewrite (bind_run _ _ _ _ _ (call_run _ h)).
  unfold try_finally, try_catch, bind at 1.
  rewrite getForecastByCity_run. rewrite <- ?app_assoc. cbn [app].
  destruct (backend net _) as [data|e].
  - unfold call. cbn [snd]. now rewrite <- ?app_assoc.
  - unfold Home.report, bind, console_error, call. cbn [snd].
    rewrite <- ?app_assoc. now destruct e.
Qed.

(** X20. What a refresh by coordinates leaves on the page.  With a forecast
    on the page whose [city_info.lat] and [city_info.lon] are truthy, the
    refresh never throws and ends with the position flag down.  When the
    backend answers, the forecast returned by [getForecastByCoords] is shown
    and the error is cleared.  When the backend request fails, the forecast
    stays and the error is the exception's message (there is no special
    text for a time-out here).  The search box is left alone either way. *)
Theorem refetchWeather_by_coordinates_outcome st forecast :
  weatherData st = Some forecast ->
  JS.to_boolean (JS.read (JS.field forecast "city_info") "lat") = true ->
  JS.to_boolean (JS.read (JS.field forecast "city_info") "lon") = true ->
  exists locationInfo h1,
    WeatherService.getLocationFromCoords parseFloat net
      (JS.read (JS.field forecast "city_info") "lat")
      (JS.read (JS.field forecast "city_info") "lon") refresh_prefix
    = (Normal locationInfo, h1) /\
    fst (refetchWeather st []) = Normal tt /\
    rendered st (snd (refetchWeather st [])) =
    match backend net (h1 ++ [coords_request
                                (JS.read (JS.field forecast "city_info") "lat")
                                (JS.read (JS.field forecast "city_info") "lon")
                                (Some (units st))]) with
    | Resolved document =>
        {| city := city st; weatherData := Some (merged locationInfo document);
           loading := loading st; error := None; units := units st;
           geoLoading := false |}
    | Rejected e =>
        {| city := city st; weatherData := Some forecast; loading := loading st;
           error := Some (message_of e); units := units st; geoLoading := false |}
    end.
Proof.
  intros Hw Hlat Hlon.
  destruct (truthy_member _ _ Hlat) as [Hci Htrue].
  set (city_info := JS.field forecast "city_info") in *.
  destruct (getLocationFromCoords_shape parseFloat net (JS.read city_info "lat")
              (JS.read city_info "lon") refresh_prefix)
    as (loc & settled & logs & Hloc & Hlogs).
  remember (refresh_prefix
            ++ [geocode_request (JS.read city_info "lat") (JS.read city_info "lon");
                Settled nominatimApi settled] ++ logs) as h1 eqn:Eh1.
  assert (Hh1 : rendered st h1 = rendered st refresh_prefix).
  { subst h1. rewrite rendered_app. apply rendered_silent. repeat constructor.
    now apply console_is_silent. }
  exists loc, h1. split; [exact Hloc|].
  assert (Hrun : refetchWeather st [] =
            match backend net (h1 ++ [coords_request (JS.read city_info "lat")
                                        (JS.read city_info "lon") (Some (units st))]) with
            | Resolved document =>
                (Normal tt,
                 h1 ++ [coords_request (JS.read city_info "lat")
                          (JS.read city_info "lon") (Some (units st));
                        Settled weatherApi true;
                        StateSet (setWeatherData (Some (merged loc document)));
                        StateSet (setGeoLoading false)])
            | Rejected e =>
                (Normal tt,
                 h1 ++ [coords_request (JS.read city_info "lat")
                          (JS.read city_info "lon") (Some (units st));
                        Settled weatherApi false; ConsoleError coords_label e;
                        ConsoleError "Error refetching weather:" e;
                        StateSet (setError (Some (message_of e)));
                        StateSet (setGeoLoading false)])
            end).
  { unfold Home.refetchWeather.
    rewrite (bind_run _ _ _ _ _ (call_run _ [])).
    unfold Home.city_info_of. rewrite Hw. fold city_info. rewrite Htrue.
    rewrite !(get_readable city_info _ Hci).
    rewrite (bind_run _ _ _ _ _ (and_also_values _ _ _)), Hlat, Hlon.
    rewrite (bind_run _ _ _ _ _ (call_run _ _)).
    unfold try_finally, try_catch. rewrite !bind_lift_normal.
    unfold bind at 1.
    change (([] ++ [StateSet (setError None)]) ++ [StateSet (setGeoLoading true)])
      with refresh_prefix.
    rewrite (getForecastByCoords_run _ _ _ _ _ _ _ _ Hloc).
    destruct (backend net _) as [document|e].
    - unfold call. cbn [snd]. now rewrite <- !app_assoc.
    - unfold Home.report, bind, console_error, call. cbn [snd].
      rewrite <- !app_assoc. now destruct e. }
  rewrite Hrun.
  destruct (backend net _) as [document|e]; (split; [reflexivity|]); cbn [snd];
    rewrite rendered_app, Hh1; destruct st; cbn in *; now subst.
Qed.

(** X21. What a refresh by name leaves on the page.  With a city in the
    search box and no usable coordinates on the page, the refresh never
    throws and ends with the loading flag down.  When the backend answers,
    its document is shown and the error is cleared.  When the request fails,
    the forecast stays and the error is the exception's message, also when
    the backend sent a text of its own with the response. *)
Theorem refetchWeather_by_name_outcome st :
  city st <> "" ->
  JS.to_boolean (Home.city_info_of (weatherData st)) = false \/
  JS.to_boolean (JS.read (Home.city_info_of (weatherData st)) "lat") = false \/
  JS.to_boolean (JS.read (Home.city_info_of (weatherData st)) "lon") = false ->
  fst (refetchWeather st []) = Normal tt /\
  rendered st (snd (refetchWeather st [])) =
  match backend net [StateSet (setError None); StateSet (setLoading true);
                     city_request (city st) (Some (units st))] with
  | Resolved document =>
      {| city := city st; weatherData := Some document; loading := false;
         error := None; units := units st; geoLoading := geoLoading st |}
  | Rejected e =>
      {| city := city st; weatherData := weatherData st; loading := false;
         error := Some (message_of e); units := units st;
         geoLoading := geoLoading st |}
  end.
Proof.
  intros Hcity Hno.
  assert (Hname : negb (String.eqb (city st) "") = true).
  { apply negb_true_iff. now apply String.eqb_neq. }
  assert (Hrun : refetchWeather st [] = Home.refetch_by_city net st [StateSet (setError None)]).
  { unfold Home.refetchWeather.
    rewrite (bind_run _ _ _ _ _ (call_run _ [])). cbn [app].
    set (city_info := Home.city_info_of (weatherData st)) in *.
    destruct (JS.to_boolean city_info) eqn:Htrue; [|now rewrite Hname].
    pose proof (truthy_readable _ Htrue) as Hci.
    rewrite !(get_readable city_info _ Hci).
    rewrite (bind_run _ _ _ _ _ (and_also_values _ _ _)).
    destruct Hno as [|[Hlat|Hlon]]; [discriminate| |].
    - now rewrite !Hlat, Hname.
    - destruct (JS.to_boolean (JS.read city_info "lat")) eqn:Hlat;
        [now rewrite Hlon, Hname|now rewrite Hlat, Hname]. }
  rewrite Hrun, refetch_by_city_run. cbn [app].
  destruct (backend net _) as [document|e]; split; reflexivity.
Qed.

End Refresh.

(* ===================================================================== *)
(** ** What the page shows *)
(* ===================================================================== *)

Lemma current_reading_throws weatherData group k :
  (exists e, Home.current_reading weatherData group k = Throw e) <->
  JS.nullish (Home.currentHourForecast weatherData) = false /\
  JS.nullish (JS.read (Home.currentHourForecast weatherData) group) = true.
Proof.
  unfold Home.current_reading.
  destruct (JS.nullish (Home.currentHourForecast weatherData)).
  - split; [intros [e He]; discriminate|intros [? _]; discriminate].
  - split.
    + intros [e He]. split; [reflexivity|].
      destruct (JS.nullish (JS.read _ group)) eqn:Hn; [reflexivity|].
      rewrite (get_readable _ _ Hn) in He. discriminate.
    + intros [_ Hn]. now apply get_nullish.
Qed.

(** X16. The readings of the current hour.  With no forecast on the page, no
    day in it or no hourly sample in the first day, humidity, wind speed and
    wind direction read as [undefined].  Reading them throws exactly when the
    first hourly sample of the first day is there and lacks the group the
    reading is in ([main] for the humidity, [wind] for the wind): the
    optional link protects the sample, not the group. *)
Theorem current_readings_throw_on_missing_group weatherData :
  ((exists e, Home.humidity weatherData = Throw e) <->
   JS.nullish (Home.currentHourForecast weatherData) = false /\
   JS.nullish (JS.read (Home.currentHourForecast weatherData) "main") = true) /\
  ((exists e, Home.windSpeed weatherData = Throw e) <->
   JS.nullish (Home.currentHourForecast weatherData) = false /\
   JS.nullish (JS.read (Home.currentHourForecast weatherData) "wind") = true) /\
  ((exists e, Home.windDeg weatherData = Throw e) <->
   JS.nullish (Home.currentHourForecast weatherData) = false /\
   JS.nullish (JS.read (Home.currentHourForecast weatherData) "wind") = true) /\
  (JS.nullish (Home.currentHourForecast weatherData) = true ->
   Home.humidity weatherData = Normal VUndefined /\
   Home.windSpeed weatherData = Normal VUndefined /\
   Home.windDeg weatherData = Normal VUndefined).
Proof.
  split; [apply current_reading_throws|].
  split; [apply current_reading_throws|].
  split; [apply current_reading_throws|].
  intros Hnone.
  unfold Home.humidity, Home.windSpeed, Home.windDeg, Home.current_reading.
  rewrite Hnone. repeat split.
Qed.

(** What the page shows of the weather depends on the document's
    [daily_forecasts] only. *)
Lemma conditions_from_daily_forecasts (w1 w2 : gmap string value) :
  w1 !! "daily_forecasts" = w2 !! "daily_forecasts" ->
  Home.currentForecast (Some w1) = Home.currentForecast (Some w2) /\
  Home.currentHourForecast (Some w1) = Home.currentHourForecast (Some w2) /\
  Home.humidity (Some w1) = Home.humidity (Some w2) /\
  Home.windSpeed (Some w1) = Home.windSpeed (Some w2) /\
  Home.windDeg (Some w1) = Home.windDeg (Some w2) /\
  Home.condition_label (Some w1) = Home.condition_label (Some w2) /\
  Home.forecast_row (Some w1) = Home.forecast_row (Some w2).
Proof.
  intros H.
  unfold Home.humidity, Home.windSpeed, Home.windDeg, Home.current_reading,
    Home.condition_label, Home.currentHourForecast, Home.currentForecast,
    Home.forecast_row, JS.field, JS.read.
  rewrite H. repeat split.
Qed.

Section Shown.

Variable parseFloat : value -> number.
Variable net : Network.

(** X17. Geocoding changes the place shown and nothing of the weather: the
    forecast [getForecastByCoords] returns gives the page the same current
    day, current hour, humidity, wind, condition text and forecast row as the
    backend's document itself, whether the geocoder gave a descriptor or
    not. *)
Theorem geocoding_leaves_conditions_alone
    latitude longitude units0 h locationInfo h1 document :
  WeatherService.getLocationFromCoords parseFloat net latitude longitude h
    = (Normal locationInfo, h1) ->
  backend net (h1 ++ [coords_request latitude longitude units0]) = Resolved document ->
  exists result,
    fst (WeatherService.getForecastByCoords parseFloat net latitude longitude units0 h)
      = Normal result /\
    Home.currentForecast (Some result) = Home.currentForecast (Some document) /\
    Home.currentHourForecast (Some result) = Home.currentHourForecast (Some document) /\
    Home.humidity (Some result) = Home.humidity (Some document) /\
    Home.windSpeed (Some result) = Home.windSpeed (Some document) /\
    Home.windDeg (Some result) = Home.windDeg (Some document) /\
    Home.condition_label (Some result) = Home.condition_label (Some document) /\
    Home.forecast_row (Some result) = Home.forecast_row (Some document).
Proof.
  intros Hloc Hnet.
  rewrite (getForecastByCoords_run _ _ _ _ _ _ _ _ Hloc), Hnet.
  eexists. split; [reflexivity|].
  apply conditions_from_daily_forecasts.
  destruct locationInfo; cbn [merged]; [now rewrite lookup_insert_ne|reflexivity].
Qed.

End Shown.

(** X18. The forecast row starts at tomorrow: for a document whose
    [daily_forecasts] is an array, the row holds the entries at positions 1,
    2 and 3 of the array, in order, as many of them as there are; the entry
    at position 0 (today) is never in it, and an array of one day or none
    gives an empty row, not the placeholder cards. *)
Theorem forecast_row_starts_tomorrow (document : gmap string value) (days : list value) :
  document !! "daily_forecasts" = Some (VArr days) ->
  exists row,
    Home.forecast_row (Some document) = Some (Normal row) /\
    length row = Nat.min 3 (length days - 1) /\
    forall i : nat, (i < 3)%nat -> row !! i = days !! S i.
Proof.
  intros H. unfold Home.forecast_row, JS.field, JS.read. rewrite H. cbn.
  eexists. split; [reflexivity|]. split.
  - rewrite length_take, length_drop. reflexivity.
  - intros i Hi. rewrite lookup_take_lt by assumption. now rewrite lookup_drop.
Qed.

Lemma length_append (a s : string) :
  String.length (a +:+ s) = (String.length a + String.length s)%nat.
Proof.
  induction a as [|c a IH]; [reflexivity|].
  change (S (String.length (a +:+ s)) = S (String.length a + String.length s)).
  now rewrite IH.
Qed.

Lemma append_inj_r (a b s : string) : a +:+ s = b +:+ s -> a = b.
Proof.
  revert b. induction a as [|c a IH]; intros [|d b] H; [reflexivity| | |].
  - apply (f_equal String.length) in H. rewrite !length_append in H. cbn in H. lia.
  - apply (f_equal String.length) in H. rewrite !length_append in H. cbn in H. lia.
  - cbn in H. injection H as -> H. f_equal. now apply IH.
Qed.

(** X19. [getWeatherIconUrl] gives the empty text exactly for a missing or
    empty icon code, and takes different icon codes to different
    addresses. *)
Theorem getWeatherIconUrl_faithful (a b : option string) :
  (Home.getWeatherIconUrl a = "" <-> a = None \/ a = Some "") /\
  (Home.getWeatherIconUrl a = Home.getWeatherIconUrl b ->
   Home.getWeatherIconUrl a <> "" -> a = b).
Proof.
  assert (Hempty : forall c, Home.getWeatherIconUrl c = "" <-> c = None \/ c = Some "").
  { intros [[|ch c]|]; cbn; split; auto; try discriminate.
    intros [|]; discriminate. }
  split; [apply Hempty|].
  intros Heq Ha.
  assert (Hb : Home.getWeatherIconUrl b <> "") by congruence.
  destruct a as [[|ca a]|], b as [[|cb b]|]; try (exfalso; now (apply Ha || apply Hb)).
  unfold Home.getWeatherIconUrl in Heq. cbn [JS.to_boolean String.eqb negb] in Heq.
  apply String.app_inj in Heq. apply append_inj_r in Heq. now rewrite Heq.
Qed.

(* ===================================================================== *)
(** ** The statements of the last sections at concrete documents *)
(* ===================================================================== *)

(** The backend calls the place "Thika Town"; the geocoder's address names
    nothing; the forecast comes back as "Unknown Location". *)
Lemma nameless_address_thika :
  JS.read (JS.field Sample.thika_forecast "city_info") "name" = VStr "Thika Town" /\
  exists result city_info,
    fst (WeatherService.getForecastByCoords Sample.parseFloat Sample.geocoder_bare
           Sample.here_lat Sample.here_lon None []) = Normal result /\
    result !! "city_info" = Some (VObj city_info) /\
    city_info !! "name" = Some (VStr "Unknown Location").
Proof.
  split; [reflexivity|].
  exact (nameless_address_overrides_backend_name Sample.parseFloat
           Sample.geocoder_bare Sample.here_lat Sample.here_lon None []
           Sample.bare_address (VObj ∅) Sample.thika_forecast
           eq_refl eq_refl eq_refl eq_refl eq_refl eq_refl eq_refl eq_refl eq_refl).
Defined.

Lemma search_blank_box :
  Home.handleSearch Sample.online Sample.response_error Sample.blank_page []
  = (Normal tt, []).
Proof.
  exact (handleSearch_blank_does_nothing Sample.online Sample.response_error
           Sample.blank_page [] eq_refl).
Defined.

Lemma search_sends_spaces :
  requests (snd (Home.handleSearch Sample.online Sample.response_error
                   Sample.typed_page []))
  = [Request weatherApi "/api/weather/forecast/city"
       [("city", VStr " Thika "); ("units", VStr "metric")]].
Proof.
  exact (handleSearch_sends_city_as_typed Sample.online Sample.response_error
           Sample.typed_page [] eq_refl).
Defined.


Lemma position_fills_box_with_thika :
  city (rendered Sample.typed_page
          (snd (Home.getLocationWeather Sample.parseFloat Sample.online
                  (Home.Located (Sample.num "-1.04") (Sample.num "37.07"))
                  Sample.typed_page [])))
  = "Thika".
Proof.
  exact (getLocationWeather_fills_box_with_geocoder_name Sample.parseFloat
           Sample.online (Sample.num "-1.04") (Sample.num "37.07")
           Sample.typed_page Sample.thika Sample.thika_forecast eq_refl eq_refl).
Defined.

(** By position near Thika, both services answering: the box takes the
    geocoder's name, the error is cleared and the position flag is down. *)
Lemma position_outcome_thika :
  let page :=
    rendered Sample.typed_page
      (snd (Home.getLocationWeather Sample.parseFloat Sample.online
              (Home.Located (Sample.num "-1.04") (Sample.num "37.07"))
              Sample.typed_page [])) in
  city page = "Thika" /\ error page = None /\ geoLoading page = false.
Proof.
  destruct (getLocationWeather_outcome Sample.parseFloat Sample.online
              (Sample.num "-1.04") (Sample.num "37.07") Sample.typed_page)
    as (locationInfo & h1 & Hloc & _ & Hpage).
  vm_compute in Hloc. injection Hloc as <- <-.
  cbv zeta. rewrite (Hpage eq_refl). repeat split.
Defined.

(** A forecast whose name is the number 5: the setter is called with it. *)
Example untyped_name_reaches_setter :
  snd (Home.show_name {[ "city_info" := VObj {[ "name" := VNum (number_of_Z 5) ]} ]} [])
  = [StateSet (setCityValue (VNum (number_of_Z 5)))].
Proof. reflexivity. Qed.

Lemma refresh_of_fresh_page_is_silent :
  requests (snd (Home.refetchWeather Sample.parseFloat Sample.online
                   Sample.fresh_page [])) = [].
Proof.
  exact (refetchWeather_without_locator_is_silent Sample.parseFloat Sample.online
           Sample.fresh_page [] eq_refl (or_introl eq_refl)).
Defined.

(** Asked about -1.04, 37.07, the backend answers for -1.05, 37.08, and that
    is where the next refresh looks. *)
Lemma refresh_drifts_to_backend_coordinates :
  exists result,
    fst (WeatherService.getForecastByCoords Sample.parseFloat Sample.online
           Sample.here_lat Sample.here_lon None []) = Normal result /\
    requests (snd (Home.refetchWeather Sample.parseFloat Sample.online
                     {| city := "Thika"; weatherData := Some result;
                        loading := false; error := None; units := metric;
                        geoLoading := false |} []))
    = [geocode_request (VNum (Sample.num "-1.05")) (VNum (Sample.num "37.08"));
       coords_request (VNum (Sample.num "-1.05")) (VNum (Sample.num "37.08"))
         (Some metric)].
Proof.
  set (info := descriptor Sample.parseFloat (Nominatim.response_value Sample.thika)
                 (Nominatim.address_value (Nominatim.address Sample.thika))).
  exists (merged (Some info) Sample.thika_forecast). split; [reflexivity|].
  exact (refetch_after_fetch_uses_backend_coordinates Sample.parseFloat Sample.online
           Sample.here_lat Sample.here_lon None [] (Some info)
           [geocode_request Sample.here_lat Sample.here_lon;
            Settled nominatimApi true]
           Sample.thika_forecast
           {[ "name" := VStr "Thika Town"; "country" := VStr "KE";
              "state" := VStr "Central";
              "lat" := VNum (Sample.num "-1.05");
              "lon" := VNum (Sample.num "37.08") ]}
           (merged (Some info) Sample.thika_forecast)
           {| city := "Thika";
              weatherData := Some (merged (Some info) Sample.thika_forecast);
              loading := false; error := None; units := metric;
              geoLoading := false |}
           [] eq_refl eq_refl eq_refl eq_refl eq_refl eq_refl eq_refl).
Defined.

Lemma conditions_near_thika :
  exists result,
    fst (WeatherService.getForecastByCoords Sample.parseFloat Sample.online
           Sample.here_lat Sample.here_lon None []) = Normal result /\
    Home.place_label (Some result) = VStr "Thika" /\
    Home.place_label (Some Sample.thika_forecast) = VStr "Thika Town" /\
    Home.forecast_row (Some result) = Home.forecast_row (Some Sample.thika_forecast) /\
    Home.windDeg (Some result) = Home.windDeg (Some Sample.thika_forecast).
Proof.
  destruct (geocoding_leaves_conditions_alone Sample.parseFloat Sample.online
              Sample.here_lat Sample.here_lon None []
              (Some (descriptor Sample.parseFloat
                       (Nominatim.response_value Sample.thika)
                       (Nominatim.address_value (Nominatim.address Sample.thika))))
              [geocode_request Sample.here_lat Sample.here_lon;
               Settled nominatimApi true]
              Sample.thika_forecast eq_refl eq_refl)
    as (result & Hresult & _ & _ & _ & _ & Hdeg & _ & Hrow).
  exists result. split; [exact Hresult|].
  split; [|split; [reflexivity|split; [exact Hrow|exact Hdeg]]].
  cbn in Hresult. injection Hresult as <-. reflexivity.
Defined.

Lemma row_of_two_days :
  exists row,
    Home.forecast_row (Some Sample.windy_forecast) = Some (Normal row) /\
    row = [VObj {[ "day_of_week" := VStr "Friday" ]}].
Proof.
  destruct (forecast_row_starts_tomorrow Sample.windy_forecast _ eq_refl)
    as (row & Hrow & _ & _).
  exists row. split; [exact Hrow|].
  cbn in Hrow. now injection Hrow as <-.
Defined.

(** The sample with wind and no [main]: the wind direction is read, the
    humidity throws. *)
Example readings_of_windy_forecast :
  Home.windDeg (Some Sample.windy_forecast) = Normal (VNum (Sample.num "90")) /\
  Home.humidity (Some Sample.windy_forecast)
  = Throw (TypeError "Cannot read properties of undefined (reading 'humidity')").
Proof. split; reflexivity. Qed.

(** Refreshing the Thika page while the backend times out keeps the forecast
    and shows the exception's own message. *)
Lemma refresh_thika_backend_down :
  error (rendered Sample.thika_page
           (snd (Home.refetchWeather Sample.parseFloat Sample.backend_down
                   Sample.thika_page [])))
  = Some "timeout of 20000ms exceeded" /\
  weatherData (rendered Sample.thika_page
                 (snd (Home.refetchWeather Sample.parseFloat Sample.backend_down
                         Sample.thika_page [])))
  = Some Sample.thika_forecast.
Proof.
  destruct (refetchWeather_by_coordinates_outcome Sample.parseFloat
              Sample.backend_down Sample.thika_page Sample.thika_forecast
              eq_refl eq_refl eq_refl)
    as (locationInfo & h1 & _ & _ & ->).
  split; reflexivity.
Defined.

(** Refreshing the equator page by name when the backend does not know the
    city shows the exception's message, not the backend's text. *)
Lemma refresh_equator_unknown_city :
  error (rendered Sample.equator_page
           (snd (Home.refetchWeather Sample.parseFloat Sample.unknown_city
                   Sample.equator_page [])))
  = Some "Request failed with status code 404".
Proof.
  destruct (refetchWeather_by_name_outcome Sample.parseFloat Sample.unknown_city
              Sample.equator_page ltac:(discriminate)
              (or_intror (or_introl eq_refl)))
    as [_ ->].
  reflexivity.
Defined.
